(** * Durable-Chatbot: the conversation store and the web routes that read it

    The development embeds
    - [chatbot_backend/shared/db_schema.sql]: the two tables
      [public.conversations] and [public.conversation_summaries] with their
      column types and constraints;
    - [web-ui/src/types/index.ts]: the row types the routes read;
    - [web-ui/src/app/api/chat/send/route.ts],
      [web-ui/src/app/api/chat/send-and-wait/route.ts] and the history route
      ([GET], [getConversation], [getAllConversations]).

    SQL statements are functions on a table value that return a result and
    the table afterwards; a route is a computation in a small monad that
    threads the list of effects it performed and can throw. *)

From Stdlib Require Import ZArith List String Ascii Bool Lia DecimalString.
From Stdlib Require Import Sorting.Sorted Sorting.Permutation.
Import ListNotations.

Local Open Scope string_scope.
Local Open Scope list_scope.
Local Open Scope Z_scope.

(* ===================================================================== *)
(** * SQL column values and types                                          *)
(* ===================================================================== *)

(** What a statement supplies for one column: nothing (the column default
    applies), an explicit NULL, or a value. *)
Inductive colval (A : Type) : Type :=
| Default
| Null
| Val (a : A).
Arguments Default {A}.
Arguments Null {A}.
Arguments Val {A} a.

Inductive SqlError : Type :=
| not_null_violation (column : string)
| check_violation (constraint : string)
| unique_violation (constraint : string)
| string_data_right_truncation (limit : nat)
| numeric_value_out_of_range
| sequence_limit_exceeded.

Inductive Result (A : Type) : Type :=
| Ok (a : A)
| Err (e : SqlError).
Arguments Ok {A} a.
Arguments Err {A} e.

Definition rbind {A B} (m : Result A) (k : A -> Result B) : Result B :=
  match m with
  | Ok a => k a
  | Err e => Err e
  end.

Notation "x <- m ;; k" := (rbind m (fun x => k))
  (at level 61, m at next level, right associativity).

(** The value a column receives: [dflt] is the column's DEFAULT ([None] when
    the column has none, so that the column is NULL). *)
Definition resolve {A} (dflt : option A) (c : colval A) : option A :=
  match c with
  | Default => dflt
  | Null => None
  | Val a => Some a
  end.

Definition INT_MIN : Z := -2147483648.
Definition INT_MAX : Z := 2147483647.

(** INTEGER: four bytes, out of range values are an error. *)
Definition INTEGER (z : Z) : Result Z :=
  if (INT_MIN <=? z) && (z <=? INT_MAX) then Ok z
  else Err numeric_value_out_of_range.

Fixpoint all_spaces (s : string) : bool :=
  match s with
  | EmptyString => true
  | String c s' => Ascii.eqb c " "%char && all_spaces s'
  end.

(** A byte 10xxxxxx, which continues a character of a UTF-8 text. *)
Definition is_continuation (c : ascii) : bool :=
  match c with
  | Ascii _ _ _ _ _ _ b6 b7 => b7 && negb b6
  end.

(** The number of characters of a UTF-8 text: its bytes that start one. *)
Fixpoint char_length (s : string) : nat :=
  match s with
  | EmptyString => 0%nat
  | String c s' =>
      if is_continuation c then char_length s' else S (char_length s')
  end.

(** The first [n] characters of a text with the bytes that continue the
    last of them, and the text from the next character on. *)
Fixpoint take_chars (n : nat) (s : string) : string :=
  match s with
  | EmptyString => EmptyString
  | String c s' =>
      if is_continuation c then String c (take_chars n s')
      else match n with
           | O => EmptyString
           | S n' => String c (take_chars n' s')
           end
  end.

Fixpoint drop_chars (n : nat) (s : string) : string :=
  match s with
  | EmptyString => EmptyString
  | String c s' =>
      if is_continuation c then drop_chars n s'
      else match n with
           | O => s
           | S n' => drop_chars n' s'
           end
  end.

(** VARCHAR(n): a value of more than [n] characters is an error unless the
    excess is only spaces, which are cut off.  The length is counted in
    characters of the UTF-8 text, not in bytes. *)
Definition VARCHAR (n : nat) (s : string) : Result string :=
  if Nat.leb (char_length s) n then Ok s
  else if all_spaces (drop_chars n s)
       then Ok (take_chars n s)
       else Err (string_data_right_truncation n).
Arguments VARCHAR : simpl never.

Definition coerce {A} (ty : A -> Result A) (v : option A) : Result (option A) :=
  match v with
  | None => Ok None
  | Some a => a' <- ty a ;; Ok (Some a')
  end.

Definition NOT_NULL {A} (column : string) (v : option A) : Result A :=
  match v with
  | Some a => Ok a
  | None => Err (not_null_violation column)
  end.

(** [nextval] of the sequence behind a SERIAL column: the sequence keeps
    the last value it handed out and stops at the INTEGER maximum. *)
Definition nextval (last : Z) : Result Z :=
  if last <? INT_MAX then Ok (last + 1) else Err sequence_limit_exceeded.

(* ===================================================================== *)
(** * Table [public.conversations]  (db_schema.sql, lines 2-9, 20-21)      *)
(* ===================================================================== *)

Module Conversations.

(** A stored row.  [id], [workflow_id], [speaker], [message] and
    [message_order] are NOT NULL; [created_at] is nullable.  [user_id] is
    the column every query of the web routes filters on and that
    [ConversationMessage] declares; db_schema.sql has no declaration for
    it, so it is carried as a nullable number without type or constraint. *)
Record ConversationMessage : Type := {
  id : Z;
  workflow_id : string;
  speaker : string;
  message : string;
  message_order : Z;
  created_at : option Z;
  user_id : option Z
}.

(** The column list of an INSERT. *)
Record Insert : Type := {
  ins_id : colval Z;
  ins_workflow_id : colval string;
  ins_speaker : colval string;
  ins_message : colval string;
  ins_message_order : colval Z;
  ins_created_at : colval Z;
  ins_user_id : colval Z
}.

(** The table: its rows in the order they were inserted, and the last
    value of [conversations_id_seq]. *)
Record Table : Type := {
  rows : list ConversationMessage;
  id_seq : Z
}.

Definition empty : Table := {| rows := []; id_seq := 0 |}.

(** CHECK (speaker IN ('user', 'response')) *)
Definition speaker_check (s : string) : bool :=
  String.eqb s "user" || String.eqb s "response".

(** PRIMARY KEY (id): no stored row has this id. *)
Definition pkey_free (rs : list ConversationMessage) (i : Z) : bool :=
  forallb (fun r => negb (Z.eqb (id r) i)) rs.

(** Typing of the supplied values, then NOT NULL, then the CHECK.  The
    user_id has no declaration in db_schema.sql and is stored as it comes. *)
Definition check_columns (i : option Z) (w s m : option string)
           (o c u : option Z) : Result ConversationMessage :=
  i' <- coerce INTEGER i ;;
  w' <- coerce (VARCHAR 255) w ;;
  s' <- coerce (VARCHAR 50) s ;;
  o' <- coerce INTEGER o ;;
  vi <- NOT_NULL "id" i' ;;
  vw <- NOT_NULL "workflow_id" w' ;;
  vs <- NOT_NULL "speaker" s' ;;
  vm <- NOT_NULL "message" m ;;
  vo <- NOT_NULL "message_order" o' ;;
  if speaker_check vs
  then Ok {| id := vi; workflow_id := vw; speaker := vs; message := vm;
             message_order := vo; created_at := c; user_id := u |}
  else Err (check_violation "conversations_speaker_check").

(** INSERT INTO public.conversations (...) VALUES (...) at time [now].
    The only unique index is the primary key: [idx_conversations_workflow_id]
    and [idx_conversations_order] are plain indexes and reject nothing.
    A value drawn from the sequence stays drawn when the row is rejected. *)
Definition insert (t : Table) (now : Z) (v : Insert)
  : Result ConversationMessage * Table :=
  let with_id (t1 : Table) (i : option Z) :=
    match check_columns i
            (resolve None (ins_workflow_id v))
            (resolve None (ins_speaker v))
            (resolve None (ins_message v))
            (resolve None (ins_message_order v))
            (resolve (Some now) (ins_created_at v))
            (resolve None (ins_user_id v)) with
    | Err e => (Err e, t1)
    | Ok r =>
        if pkey_free (rows t1) (id r)
        then (Ok r, {| rows := rows t1 ++ [r]; id_seq := id_seq t1 |})
        else (Err (unique_violation "conversations_pkey"), t1)
    end in
  match ins_id v with
  | Default =>
      match nextval (id_seq t) with
      | Ok i => with_id {| rows := rows t; id_seq := i |} (Some i)
      | Err e => (Err e, t)
      end
  | Null => with_id t None
  | Val i => with_id t (Some i)
  end.

(** Constraints of one stored row, as an UPDATE re-checks them. *)
Definition recheck (r : ConversationMessage) : Result ConversationMessage :=
  check_columns (Some (id r)) (Some (workflow_id r)) (Some (speaker r))
                (Some (message r)) (Some (message_order r))
                (created_at r) (user_id r).

Fixpoint recheck_all (rs : list ConversationMessage)
  : Result (list ConversationMessage) :=
  match rs with
  | [] => Ok []
  | r :: rs' => r' <- recheck r ;; rs'' <- recheck_all rs' ;; Ok (r' :: rs'')
  end.

Fixpoint ids_distinct (rs : list ConversationMessage) : bool :=
  match rs with
  | [] => true
  | r :: rs' => pkey_free rs' (id r) && ids_distinct rs'
  end.

(** UPDATE public.conversations SET ... WHERE ...: [set] gives the new
    row of every row selected by [where_]; the statement fails as a whole,
    changing nothing, when a new row breaks a constraint. *)
Definition update (t : Table)
           (where_ : ConversationMessage -> bool)
           (set : ConversationMessage -> ConversationMessage)
  : Result nat * Table :=
  match recheck_all (map (fun r => if where_ r then set r else r) (rows t)) with
  | Err e => (Err e, t)
  | Ok rs =>
      if ids_distinct rs
      then (Ok (List.length (filter where_ (rows t))),
            {| rows := rs; id_seq := id_seq t |})
      else (Err (unique_violation "conversations_pkey"), t)
  end.

(** DELETE FROM public.conversations WHERE ... *)
Definition delete (t : Table) (where_ : ConversationMessage -> bool)
  : Result nat * Table :=
  (Ok (List.length (filter where_ (rows t))),
   {| rows := filter (fun r => negb (where_ r)) (rows t); id_seq := id_seq t |}).

(** The tables the schema lets statements build, starting from the empty
    table that [CREATE TABLE] makes. *)
Inductive reachable : Table -> Prop :=
| reach_empty : reachable empty
| reach_insert t now v : reachable t -> reachable (snd (insert t now v))
| reach_update t w s : reachable t -> reachable (snd (update t w s))
| reach_delete t w : reachable t -> reachable (snd (delete t w)).

(** The turns of one conversation, in insertion order. *)
Definition turns_of (w : string) (rs : list ConversationMessage)
  : list ConversationMessage :=
  filter (fun r => String.eqb (workflow_id r) w) rs.

Definition orders_of (w : string) (t : Table) : list Z :=
  map message_order (turns_of w (rows t)).

End Conversations.

(* ===================================================================== *)
(** * Table [public.conversation_summaries]  (db_schema.sql, lines 11-17)  *)
(* ===================================================================== *)

Module Summaries.

(** A stored row: [id] and [workflow_id] are NOT NULL, the rest is
    nullable.  [user_id] is read by the history route and declared in
    [ConversationSummary]; as for the conversations it is carried as a
    nullable number. *)
Record ConversationSummary : Type := {
  id : Z;
  workflow_id : string;
  summary : option string;
  created_at : option Z;
  updated_at : option Z;
  user_id : option Z
}.

Record Insert : Type := {
  ins_id : colval Z;
  ins_workflow_id : colval string;
  ins_summary : colval string;
  ins_created_at : colval Z;
  ins_updated_at : colval Z;
  ins_user_id : colval Z
}.

Record Table : Type := {
  rows : list ConversationSummary;
  id_seq : Z
}.

Definition empty : Table := {| rows := []; id_seq := 0 |}.

Definition pkey_free (rs : list ConversationSummary) (i : Z) : bool :=
  forallb (fun r => negb (Z.eqb (id r) i)) rs.

(** workflow_id ... UNIQUE: no stored row has this workflow_id. *)
Definition workflow_id_free (rs : list ConversationSummary) (w : string) : bool :=
  forallb (fun r => negb (String.eqb (workflow_id r) w)) rs.

Definition check_columns (i : option Z) (w s : option string)
           (c d u : option Z) : Result ConversationSummary :=
  i' <- coerce INTEGER i ;;
  w' <- coerce (VARCHAR 255) w ;;
  vi <- NOT_NULL "id" i' ;;
  vw <- NOT_NULL "workflow_id" w' ;;
  Ok {| id := vi; workflow_id := vw; summary := s; created_at := c;
        updated_at := d; user_id := u |}.

(** The row an INSERT proposes, with the sequence advanced when the id is
    drawn from it. *)
Definition propose (t : Table) (now : Z) (v : Insert)
  : Result ConversationSummary * Table :=
  let columns (i : option Z) :=
    check_columns i
      (resolve None (ins_workflow_id v))
      (resolve None (ins_summary v))
      (resolve (Some now) (ins_created_at v))
      (resolve (Some now) (ins_updated_at v))
      (resolve None (ins_user_id v)) in
  match ins_id v with
  | Default =>
      match nextval (id_seq t) with
      | Ok i => (columns (Some i), {| rows := rows t; id_seq := i |})
      | Err e => (Err e, t)
      end
  | Null => (columns None, t)
  | Val i => (columns (Some i), t)
  end.

(** INSERT INTO public.conversation_summaries (...) VALUES (...). *)
Definition insert (t : Table) (now : Z) (v : Insert)
  : Result ConversationSummary * Table :=
  match propose t now v with
  | (Err e, t1) => (Err e, t1)
  | (Ok r, t1) =>
      if negb (pkey_free (rows t1) (id r))
      then (Err (unique_violation "conversation_summaries_pkey"), t1)
      else if negb (workflow_id_free (rows t1) (workflow_id r))
      then (Err (unique_violation "conversation_summaries_workflow_id_key"), t1)
      else (Ok r, {| rows := rows t1 ++ [r]; id_seq := id_seq t1 |})
  end.

Definition recheck (r : ConversationSummary) : Result ConversationSummary :=
  check_columns (Some (id r)) (Some (workflow_id r)) (summary r)
                (created_at r) (updated_at r) (user_id r).

Fixpoint recheck_all (rs : list ConversationSummary)
  : Result (list ConversationSummary) :=
  match rs with
  | [] => Ok []
  | r :: rs' => r' <- recheck r ;; rs'' <- recheck_all rs' ;; Ok (r' :: rs'')
  end.

Fixpoint keys_distinct (rs : list ConversationSummary) : bool :=
  match rs with
  | [] => true
  | r :: rs' =>
      pkey_free rs' (id r) && workflow_id_free rs' (workflow_id r)
      && keys_distinct rs'
  end.

(** UPDATE public.conversation_summaries SET ... WHERE ... *)
Definition update (t : Table)
           (where_ : ConversationSummary -> bool)
           (set : ConversationSummary -> ConversationSummary)
  : Result nat * Table :=
  match recheck_all (map (fun r => if where_ r then set r else r) (rows t)) with
  | Err e => (Err e, t)
  | Ok rs =>
      if keys_distinct rs
      then (Ok (List.length (filter where_ (rows t))),
            {| rows := rs; id_seq := id_seq t |})
      else (Err (unique_violation "conversation_summaries"), t)
  end.

(** DELETE FROM public.conversation_summaries WHERE ... *)
Definition delete (t : Table) (where_ : ConversationSummary -> bool)
  : Result nat * Table :=
  (Ok (List.length (filter where_ (rows t))),
   {| rows := filter (fun r => negb (where_ r)) (rows t); id_seq := id_seq t |}).

(** Modelled from the spec: the "else overwrite" branch of the upsert below,
    DO UPDATE SET summary = EXCLUDED.summary, updated_at = now, on the row
    that has the workflow_id of the proposed row [r]. *)
Definition overwrite (r : ConversationSummary) (now : Z) (x : ConversationSummary)
  : ConversationSummary :=
  if String.eqb (workflow_id x) (workflow_id r)
  then {| id := id x; workflow_id := workflow_id x; summary := summary r;
          created_at := created_at x; updated_at := Some now;
          user_id := user_id x |}
  else x.

(** Modelled from the spec: the writer of the rolling summary, which is in
    the backend's activities and not under src/.  "upsertSummary
    (conversationId, text)" with "upsert semantics (create-if-absent, else
    overwrite)" is the statement
    [INSERT ... (workflow_id, summary, user_id) VALUES (...)
     ON CONFLICT (workflow_id) DO UPDATE
     SET summary = EXCLUDED.summary, updated_at = now]
    on this table: the proposed row is inserted when no row has its
    workflow_id, and otherwise that row takes the new text. *)
Definition upsertSummary (t : Table) (now : Z) (w text : string)
           (u : option Z) : Result unit * Table :=
  match propose t now
          {| ins_id := Default; ins_workflow_id := Val w;
             ins_summary := Val text; ins_created_at := Default;
             ins_updated_at := Default;
             ins_user_id := match u with Some z => Val z | None => Null end |}
  with
  | (Err e, t1) => (Err e, t1)
  | (Ok r, t1) =>
      if negb (workflow_id_free (rows t1) (workflow_id r))
      then (Ok tt,
            {| rows := map (overwrite r now) (rows t1); id_seq := id_seq t1 |})
      else if negb (pkey_free (rows t1) (id r))
      then (Err (unique_violation "conversation_summaries_pkey"), t1)
      else (Ok tt, {| rows := rows t1 ++ [r]; id_seq := id_seq t1 |})
  end.

Inductive reachable : Table -> Prop :=
| reach_empty : reachable empty
| reach_insert t now v : reachable t -> reachable (snd (insert t now v))
| reach_update t w s : reachable t -> reachable (snd (update t w s))
| reach_delete t w : reachable t -> reachable (snd (delete t w))
| reach_upsert t now w text u :
    reachable t -> reachable (snd (upsertSummary t now w text u)).

(** The live rows of one conversation. *)
Definition summaries_of (w : string) (t : Table) : list ConversationSummary :=
  filter (fun r => String.eqb (workflow_id r) w) (rows t).

End Summaries.

(* ===================================================================== *)
(** * The writer of turns                                                  *)
(* ===================================================================== *)

Module Writer.
Import Conversations.

(** Modelled from the spec: the conversation state machine's writer of
    turns, which is in the backend's workflow and activities and not under
    src/.  "sequenceNumber (monotonic per conversation, starts at 1)",
    "no gaps": a new turn gets the number after those the conversation
    already has. *)
Definition next_sequence (t : Table) (w : string) : Z :=
  Z.of_nat (List.length (turns_of w (rows t))) + 1.

(** Modelled from the spec: a turn as the writer receives it, before it has
    a sequence number. *)
Record Submission : Type := {
  sub_now : Z;
  sub_workflow_id : string;
  sub_speaker : string;
  sub_message : string;
  sub_user_id : option Z
}.

(** Modelled from the spec: "appendTurn(turn)", an INSERT of the turn with
    its sequence number; the id comes from the sequence. *)
Definition appendTurn (t : Table) (s : Submission)
  : Result ConversationMessage * Table :=
  insert t (sub_now s)
         {| ins_id := Default;
            ins_workflow_id := Val (sub_workflow_id s);
            ins_speaker := Val (sub_speaker s);
            ins_message := Val (sub_message s);
            ins_message_order := Val (next_sequence t (sub_workflow_id s));
            ins_created_at := Default;
            ins_user_id := match sub_user_id s with
                           | Some z => Val z
                           | None => Null
                           end |}.

(** Modelled from the spec: the writes of many conversations, one after the
    other in the order the store receives them. *)
Definition appendAll (t : Table) (ss : list Submission) : Table :=
  fold_left (fun t s => snd (appendTurn t s)) ss t.

(** 1, 2, ..., n *)
Definition iota (n : nat) : list Z := map Z.of_nat (seq 1 n).

(** Contiguous from 1: no gap, no duplicate, strictly increasing. *)
Definition contiguous (l : list Z) : Prop := l = iota (List.length l).

End Writer.

(* ===================================================================== *)
(** * The web routes                                                       *)
(* ===================================================================== *)

Module Web.

(** ** Types  (web-ui/src/types/index.ts) *)

Record User : Type := {
  id : Z;
  email : string;
  name : string;
  created_at : string
}.

(** What [verifyToken] decodes; the routes read [decoded.userId]. *)
Record Decoded : Type := { userId : Z }.

Record Database : Type := {
  conversations : Conversations.Table;
  conversation_summaries : Summaries.Table
}.

(** The object [getConversation] returns. *)
Record Conversation : Type := {
  workflow_id : string;
  messages : list Conversations.ConversationMessage;
  summary : option Summaries.ConversationSummary
}.

(** A row of the listing that [getAllConversations] selects. *)
Record Listing : Type := {
  l_workflow_id : string;
  l_summary : option string;
  l_created_at : option Z;
  l_updated_at : option Z;
  message_count : nat
}.

(** The body of a chat request: a field is [None] when the JSON has no
    such field or has null there. *)
Record ChatBody : Type := {
  message : option string;
  sessionId : option string
}.

(** A call into code outside the routes: it returns or it throws. *)
Inductive Ext (A : Type) : Type :=
| Returns (a : A)
| Throws (reason : string).
Arguments Returns {A} a.
Arguments Throws {A} reason.

Record NextRequest : Type := {
  cookies_token : option string;           (* request.cookies.get('token')?.value *)
  json : Ext ChatBody;                     (* await request.json() *)
  searchParams_workflowId : option string  (* searchParams.get('workflowId') *)
}.

Inductive Body : Type :=
| error_body (error : string)
| response_body (response : string)
| conversation_body (conversation : option Conversation)
| conversations_body (conversations : list Listing).

Record NextResponse : Type := {
  body : Body;
  status : Z
}.

Definition NextResponse_json (b : Body) (s : Z) : NextResponse :=
  {| body := b; status := s |}.

(** How the child process of [spawn] ends: the 'close' event with its
    exit code (null when a signal ended it) and what it wrote, or the
    'error' event. *)
Inductive ChildOutcome : Type :=
| close (code : option Z) (stdout stderr : string)
| child_error (error : string).

(** ** Queries of the routes *)

Inductive Query : Type -> Type :=
| SelectCount (workflowId : string) (userId : Z) : Query nat
| SelectNewMessages (workflowId : string) (userId : Z)
  : Query (list Conversations.ConversationMessage)
| SelectMessages (userId : Z) (workflowId : string)
  : Query (list Conversations.ConversationMessage)
| SelectSummary (userId : Z) (workflowId : string)
  : Query (list Summaries.ConversationSummary)
| SelectListing (userId : Z) : Query (list Listing).

Definition is_user (u : option Z) (userId : Z) : bool :=
  match u with
  | Some z => Z.eqb z userId
  | None => false
  end.

(** WHERE workflow_id = $1 AND user_id = $2 *)
Definition where_conversation (workflowId : string) (userId : Z)
           (r : Conversations.ConversationMessage) : bool :=
  String.eqb (Conversations.workflow_id r) workflowId
  && is_user (Conversations.user_id r) userId.

(** ORDER BY message_order ASC, as an insertion sort that keeps rows with
    equal message_order in the order of the table. *)
Fixpoint insert_by_order (r : Conversations.ConversationMessage)
         (l : list Conversations.ConversationMessage) :=
  match l with
  | [] => [r]
  | x :: l' =>
      if Conversations.message_order r <=? Conversations.message_order x
      then r :: l
      else x :: insert_by_order r l'
  end.

Definition order_by_message_order (l : list Conversations.ConversationMessage) :=
  fold_right insert_by_order [] l.

Definition ascending (l : list Conversations.ConversationMessage) : Prop :=
  StronglySorted (fun a b => Conversations.message_order a
                             <= Conversations.message_order b) l.

Definition strictly_ascending (l : list Conversations.ConversationMessage) : Prop :=
  StronglySorted (fun a b => Conversations.message_order a
                             < Conversations.message_order b) l.

Definition select_messages (db : Database) (workflowId : string) (userId : Z) :=
  order_by_message_order
    (filter (where_conversation workflowId userId)
            (Conversations.rows (conversations db))).

(** ORDER BY cs.updated_at DESC: NULL sorts first in descending order. *)
Definition updated_not_before (a b : Listing) : bool :=
  match l_updated_at a, l_updated_at b with
  | None, _ => true
  | Some _, None => false
  | Some x, Some y => y <=? x
  end.

Fixpoint insert_by_updated (r : Listing) (l : list Listing) :=
  match l with
  | [] => [r]
  | x :: l' =>
      if updated_not_before r x then r :: l else x :: insert_by_updated r l'
  end.

Definition Listing_eq_dec (a b : Listing) : {a = b} + {a <> b}.
Proof.
  decide equality;
    try apply Nat.eq_dec; try apply string_dec;
    decide equality; try apply Z.eq_dec; apply string_dec.
Defined.

Definition select_listing (db : Database) (userId : Z) : list Listing :=
  fold_right insert_by_updated []
    (nodup Listing_eq_dec
       (map (fun cs =>
               {| l_workflow_id := Summaries.workflow_id cs;
                  l_summary := Summaries.summary cs;
                  l_created_at := Summaries.created_at cs;
                  l_updated_at := Summaries.updated_at cs;
                  message_count :=
                    List.length
                      (filter (where_conversation (Summaries.workflow_id cs) userId)
                              (Conversations.rows (conversations db))) |})
            (filter (fun cs => is_user (Summaries.user_id cs) userId)
                    (Summaries.rows (conversation_summaries db))))).

(** The rows a query returns on a database.  The select lists keep some
    of the columns; the rows are carried whole. *)
Definition run_query {A} (q : Query A) (db : Database) : A :=
  match q in Query T return T with
  | SelectCount w u =>
      List.length (filter (where_conversation w u)
                          (Conversations.rows (conversations db)))
  | SelectNewMessages w u => select_messages db w u
  | SelectMessages u w => select_messages db w u
  | SelectSummary u w =>
      filter (fun cs => is_user (Summaries.user_id cs) u
                        && String.eqb (Summaries.workflow_id cs) w)
             (Summaries.rows (conversation_summaries db))
  | SelectListing u => select_listing db u
  end.

(** ** Effects and the monad of a route *)

Inductive Effect : Type :=
| DateNow
| GetUserById (userId : Z)
| RequestJson
| Spawn (command : string) (args : list string)
| PoolQuery {A} (q : Query A)
| SetTimeout (ms : Z).

(** How a computation stands: it returned, it threw, or the steps allowed
    to its loop ran out before it ended. *)
Inductive Outcome (A : Type) : Type :=
| Value (a : A)
| Thrown (error : string)
| Pending.
Arguments Value {A} a.
Arguments Thrown {A} error.
Arguments Pending {A}.

(** A computation maps the effects performed so far to its outcome and
    the effects performed then. *)
Definition M (A : Type) : Type := list Effect -> Outcome A * list Effect.

Definition ret {A} (a : A) : M A := fun log => (Value a, log).

Definition throw {A} (error : string) : M A := fun log => (Thrown error, log).

Definition bind {A B} (m : M A) (k : A -> M B) : M B :=
  fun log =>
    match m log with
    | (Value a, log') => k a log'
    | (Thrown e, log') => (Thrown e, log')
    | (Pending, log') => (Pending, log')
    end.

(** try { m } catch (error) { handler error } *)
Definition try_catch {A} (m : M A) (handler : string -> M A) : M A :=
  fun log =>
    match m log with
    | (Thrown e, log') => handler e log'
    | r => r
    end.

Definition perform (e : Effect) : M unit :=
  fun log => (Value tt, (log ++ [e])).

Definition of_ext {A} (x : Ext A) : M A :=
  match x with
  | Returns a => ret a
  | Throws e => throw e
  end.

Definition is_query (e : Effect) : bool :=
  match e with PoolQuery _ => true | _ => false end.

Definition is_date_now (e : Effect) : bool :=
  match e with DateNow => true | _ => false end.

Definition is_spawn (e : Effect) : bool :=
  match e with Spawn _ _ => true | _ => false end.

Definition queries_in (log : list Effect) : nat := List.length (filter is_query log).

Definition readings_in (log : list Effect) : nat :=
  List.length (filter is_date_now log).

(** What the runtime gives for [Date.now] and an awaited [setTimeout]: from
    one reading of the clock to the next, time does not run backwards, and
    at least the delays of the timers awaited in between have passed.
    [timers_honoured clock k slept log] tests this along [log], where [k]
    readings came before [log] and [slept] is the delay awaited since the
    last of them. *)
Fixpoint timers_honoured (clock : nat -> Z) (k : nat) (slept : Z)
         (log : list Effect) : bool :=
  match log with
  | [] => true
  | DateNow :: rest =>
      match k with
      | O => true
      | S j => slept <=? clock k - clock j
      end && timers_honoured clock (S k) 0 rest
  | SetTimeout ms :: rest => timers_honoured clock k (slept + ms) rest
  | _ :: rest => timers_honoured clock k slept rest
  end.

End Web.

Notation "'let*' x ':=' m 'in' k" := (Web.bind m (fun x => k))
  (at level 10, x name, m at level 100, k at level 200).
Notation "m1 '>>' m2" := (Web.bind m1 (fun _ => m2))
  (at level 62, right associativity).

(** The lines every handler starts with: the token cookie, [verifyToken],
    [getUserById]; [k] is the rest of the handler's try block. *)
Module Auth.
Import Web.

Section Environment.
Variable verifyToken : string -> Ext (option Decoded).
Variable getUserById : Z -> Ext (option User).

Definition authenticated (request : NextRequest)
           (k : User -> M NextResponse) : M NextResponse :=
  match cookies_token request with
  | None => ret (NextResponse_json (error_body "Not authenticated") 401)
  | Some token =>
      if String.eqb token ""
      then ret (NextResponse_json (error_body "Not authenticated") 401)
      else
        let* decoded := of_ext (verifyToken token) in
        match decoded with
        | None => ret (NextResponse_json (error_body "Invalid token") 401)
        | Some decoded =>
            let* user := perform (GetUserById (userId decoded))
                         >> of_ext (getUserById (userId decoded)) in
            match user with
            | None => ret (NextResponse_json (error_body "User not found") 404)
            | Some user => k user
            end
        end
  end.
End Environment.

(** The token cookie is absent or empty, fails verification, or resolves to
    no user. *)
Definition rejected (verifyToken : string -> Ext (option Decoded))
           (getUserById : Z -> Ext (option User)) (request : NextRequest) : Prop :=
  match cookies_token request with
  | None => True
  | Some token =>
      token = ""
      \/ verifyToken token = Returns None
      \/ exists decoded, verifyToken token = Returns (Some decoded)
                         /\ getUserById (userId decoded) = Returns None
  end.

(** The token cookie verifies and resolves to [user]. *)
Definition logged_in (verifyToken : string -> Ext (option Decoded))
           (getUserById : Z -> Ext (option User)) (request : NextRequest)
           (user : User) : Prop :=
  exists token decoded,
    cookies_token request = Some token /\ token <> ""
    /\ verifyToken token = Returns (Some decoded)
    /\ userId decoded = id user
    /\ getUserById (id user) = Returns (Some user).

(** No chatbot was started and the conversation store was not queried. *)
Definition untouched (log : list Effect) : Prop :=
  Forall (fun e => is_spawn e = false /\ is_query e = false) log.

(** !x for a string field that may be missing *)
Definition truthy (x : option string) : bool :=
  match x with
  | Some s => negb (String.eqb s "")
  | None => false
  end.

Definition field (x : option string) : string :=
  match x with
  | Some s => s
  | None => ""
  end.

(** The segments of a path between its slashes. *)
Fixpoint segments_from (current : string) (path : string) : list string :=
  match path with
  | EmptyString => [current]
  | String c path' =>
      if Ascii.eqb c "/"%char
      then current :: segments_from EmptyString path'
      else segments_from (current ++ String c EmptyString)%string path'
  end.

(** One step of normalizeString: [kept] holds the segments kept so far, the
    last one first.  An empty segment and "." are dropped; ".." removes the
    segment before it, or stays when there is none to remove and the path
    is relative. *)
Definition normalize_segment (allowAboveRoot : bool) (kept : list string)
           (segment : string) : list string :=
  if String.eqb segment "" || String.eqb segment "." then kept
  else if String.eqb segment ".."
       then match kept with
            | last :: kept' =>
                if String.eqb last ".." then segment :: kept else kept'
            | [] => if allowAboveRoot then [segment] else []
            end
       else segment :: kept.

Definition ends_with_slash (path : string) : bool :=
  match rev (list_ascii_of_string path) with
  | c :: _ => Ascii.eqb c "/"%char
  | [] => false
  end.

(** path.posix.normalize *)
Definition path_normalize (path : string) : string :=
  if String.eqb path "" then "."
  else
    let isAbsolute := match path with
                      | String c _ => Ascii.eqb c "/"%char
                      | EmptyString => false
                      end in
    let trailingSeparator := ends_with_slash path in
    let kept :=
      rev (fold_left (normalize_segment (negb isAbsolute))
                     (segments_from EmptyString path) []) in
    let normalized := String.concat "/" kept in
    if String.eqb normalized ""
    then if isAbsolute then "/" else if trailingSeparator then "./" else "."
    else
      let normalized :=
        if trailingSeparator then (normalized ++ "/")%string else normalized in
      if isAbsolute then ("/" ++ normalized)%string else normalized.

(** path.join on a POSIX system: the non-empty parts joined by "/" and
    normalized. *)
Definition path_join (parts : list string) : string :=
  let joined :=
    String.concat "/" (filter (fun part => negb (String.eqb part "")) parts) in
  if String.eqb joined "" then "." else path_normalize joined.

(** n.toString() and the interpolation of an integer *)
Definition toString (n : Z) : string := NilZero.string_of_int (Z.to_int n).

Definition code_toString (code : option Z) : string :=
  match code with
  | Some n => toString n
  | None => "null"
  end.

Definition exited_zero (code : option Z) : bool :=
  match code with
  | Some n => Z.eqb n 0
  | None => false
  end.

End Auth.

(** ** web-ui/src/app/api/chat/send/route.ts *)
Module Send.
Import Web Auth.

Section Environment.
Variable verifyToken : string -> Ext (option Decoded).
Variable getUserById : Z -> Ext (option User).
Variable spawn : string -> list string -> ChildOutcome.
Variable cwd : string.

Definition acknowledgment : string :=
  "Message sent to chatbot. Please check the workflow for the response or wait for timeout.".

Definition callPythonChatbot (workflowId message : string) : M string :=
  let scriptPath :=
    path_join [cwd; ".."; "bedrock"; "session"; "send_message.py"] in
  perform (Spawn "python" [scriptPath; workflowId; message]) >>
  match spawn "python" [scriptPath; workflowId; message] with
  | close code stdout stderr =>
      if exited_zero code
      then ret acknowledgment
      else throw ("Python script failed with code " ++ code_toString code
                  ++ ": " ++ stderr)%string
  | child_error error => throw error
  end.

Definition POST (request : NextRequest) : M NextResponse :=
  try_catch
    (authenticated verifyToken getUserById request (fun user =>
       let* body := perform RequestJson >> of_ext (json request) in
       if negb (truthy (message body)) || negb (truthy (sessionId body))
       then ret (NextResponse_json
                   (error_body "Message and sessionId are required") 400)
       else
         let workflowId :=
           (field (sessionId body) ++ "-user-" ++ toString (id user))%string in
         let* response := callPythonChatbot workflowId (field (message body)) in
         ret (NextResponse_json (response_body response) 200)))
    (fun error =>
       ret (NextResponse_json (error_body "Internal server error") 500)).
End Environment.

End Send.

(** ** web-ui/src/app/api/chat/send-and-wait/route.ts *)
Module SendAndWait.
Import Web Auth.

(** msg.speaker === 'response' *)
Definition is_response (msg : Conversations.ConversationMessage) : bool :=
  String.eqb (Conversations.speaker msg) "response".

(** The reply one poll finds among the rows after the first
    [initialCount]: the message of the first of them whose speaker is
    'response'. *)
Definition new_reply (initialCount : nat)
           (messages : list Conversations.ConversationMessage) : option string :=
  option_map Conversations.message
             (find is_response (skipn initialCount messages)).

Section Environment.
Variable verifyToken : string -> Ext (option Decoded).
Variable getUserById : Z -> Ext (option User).
Variable spawn : string -> list string -> ChildOutcome.
Variable cwd : string.
(** The database as the n-th query of the request finds it; [None] when
    that query throws. *)
Variable pool : nat -> option Database.
(** The n-th reading of [Date.now()] that the request takes to decide:
    [startTime] and then the test of every turn of the loop (the reading
    that [console.log] prints is left out). *)
Variable clock : nat -> Z.

Definition Date_now : M Z :=
  fun log => (Value (clock (readings_in log)), log ++ [DateNow]).

Definition pool_query {A} (q : Query A) : M A :=
  fun log =>
    match pool (queries_in log) with
    | Some db => (Value (run_query q db), log ++ [PoolQuery q])
    | None => (Thrown "query failed", log ++ [PoolQuery q])
    end.


(** [parseInt(result.rows[0].count) || 0] is the count itself. *)
Definition getMessageCount (workflowId : string) (userId : Z) : M nat :=
  try_catch
    (let* result := pool_query (SelectCount workflowId userId) in
     ret result)
    (fun error => ret 0%nat).

Definition maxWaitTime : Z := 75000.
Definition pollInterval : Z := 1000.

Definition timeout_reply : string :=
  "Sorry, the AI took too long to respond. Please try again or check your conversation history later.".

(** The while loop of [waitForResponse]; [fuel] bounds its turns.  The
    try block yields [Some] of what it returns from the function and
    [None] when it falls through to the next turn. *)
Fixpoint waitLoop (fuel : nat) (workflowId : string) (userId : Z)
         (initialCount : nat) (startTime : Z) : M string :=
  match fuel with
  | O => fun log => (Pending, log)
  | S fuel' =>
      let* now := Date_now in
      if now - startTime <? maxWaitTime
      then
        let* returned :=
          try_catch
            (let* messages := pool_query (SelectNewMessages workflowId userId) in
             if Nat.ltb initialCount (List.length messages)
             then
               let newMessages := skipn initialCount messages in
               match find is_response newMessages with
               | Some botResponse =>
                   ret (Some (Conversations.message botResponse))
               | None => perform (SetTimeout pollInterval) >> ret None
               end
             else perform (SetTimeout pollInterval) >> ret None)
            (fun error => ret None) in
        match returned with
        | Some reply => ret reply
        | None => waitLoop fuel' workflowId userId initialCount startTime
        end
      else ret timeout_reply
  end.

Definition waitForResponse (fuel : nat) (workflowId : string) (userId : Z)
           (initialCount : nat) : M string :=
  let* startTime := Date_now in
  waitLoop fuel workflowId userId initialCount startTime.

Definition callPythonChatbot (workflowId message : string) (userId : Z)
  : M unit :=
  let scriptPath :=
    path_join [cwd; ".."; "chatbot_backend"; "send_message.py"] in
  perform (Spawn "python" [scriptPath; workflowId; message; toString userId]) >>
  match spawn "python" [scriptPath; workflowId; message; toString userId] with
  | close code stdout stderr =>
      if exited_zero code
      then ret tt
      else throw ("Python script failed with code " ++ code_toString code
                  ++ ": " ++ stderr)%string
  | child_error error => throw error
  end.

Definition POST (fuel : nat) (request : NextRequest) : M NextResponse :=
  try_catch
    (authenticated verifyToken getUserById request (fun user =>
       let* body := perform RequestJson >> of_ext (json request) in
       if negb (truthy (message body)) || negb (truthy (sessionId body))
       then ret (NextResponse_json
                   (error_body "Message and sessionId are required") 400)
       else
         let workflowId := field (sessionId body) in
         let* initialCount := getMessageCount workflowId (id user) in
         callPythonChatbot workflowId (field (message body)) (id user) >>
         let* response :=
           waitForResponse fuel workflowId (id user) initialCount in
         ret (NextResponse_json (response_body response) 200)))
    (fun error =>
       ret (NextResponse_json (error_body "Internal server error") 500)).
End Environment.

End SendAndWait.

(** ** The history route ([GET], [getConversation], [getAllConversations]) *)
Module History.
Import Web Auth.

Section Environment.
Variable verifyToken : string -> Ext (option Decoded).
Variable getUserById : Z -> Ext (option User).
Variable pool : nat -> option Database.

Definition pool_query {A} (q : Query A) : M A :=
  fun log =>
    match pool (queries_in log) with
    | Some db => (Value (run_query q db), log ++ [PoolQuery q])
    | None => (Thrown "query failed", log ++ [PoolQuery q])
    end.

Definition getConversation (userId : Z) (workflowId : string)
  : M (option Conversation) :=
  try_catch
    (let* messagesResult := pool_query (SelectMessages userId workflowId) in
     let* summaryResult := pool_query (SelectSummary userId workflowId) in
     ret (Some {| workflow_id := workflowId;
                  messages := messagesResult;
                  summary := hd_error summaryResult |}))
    (fun error => ret None).

Definition getAllConversations (userId : Z) : M (list Listing) :=
  try_catch
    (let* result := pool_query (SelectListing userId) in
     ret result)
    (fun error => ret []).

Definition GET (request : NextRequest) : M NextResponse :=
  try_catch
    (authenticated verifyToken getUserById request (fun user =>
       if truthy (searchParams_workflowId request)
       then
         let* conversation :=
           getConversation (id user) (field (searchParams_workflowId request)) in
         ret (NextResponse_json (conversation_body conversation) 200)
       else
         let* conversations := getAllConversations (id user) in
         ret (NextResponse_json (conversations_body conversations) 200)))
    (fun error =>
       ret (NextResponse_json (error_body "Internal server error") 500)).
End Environment.

End History.

(* ===================================================================== *)
(** * The chat and history components                                      *)
(* ===================================================================== *)

(** What [fetch] gives a component: the request failed (the promise
    rejects), or a response came with its status and its JSON body, which
    may fail to parse. *)
Module Fetch.

Inductive Fetched (A : Type) : Type :=
| rejects
| responds (status : Z) (json : Web.Ext A).
Arguments rejects {A}.
Arguments responds {A} status json.

(** response.ok *)
Definition ok (status : Z) : bool := (200 <=? status) && (status <=? 299).

(** A request as the component sends it: the URL and the fields of the JSON
    body. *)
Record Request : Type := {
  url : string;
  body : list (string * string)
}.

End Fetch.

(** ** web-ui/src/components/ChatInterfaceSimple.tsx *)
Module ChatInterfaceSimple.
Import Fetch.

Inductive Sender : Type := user | bot.

(** ChatMessage of types/index.ts; the timestamp is the clock reading the
    Date was made from. *)
Record ChatMessage : Type := {
  id : string;
  content : string;
  sender : Sender;
  timestamp : Z
}.

(** The state of the component. *)
Record State : Type := {
  messages : list ChatMessage;
  inputMessage : string;
  loading : bool;
  sessionId : string
}.

(** The JSON the chat route answers with. *)
Record SendData : Type := { response : string }.

(** The JSON the check-response route answers with; [newMessages] may be
    missing. *)
Record CheckData : Type := {
  newMessages : option (list Conversations.ConversationMessage)
}.

(** What one run of a handler did: the state rendered while its request was
    in flight, the state when it ended, and the requests it sent. *)
Record Run : Type := {
  during : State;
  final : State;
  sent : list Request
}.

Definition apology : string := "Sorry, I encountered an error. Please try again.".

(** `${user?.id}` *)
Definition user_id_text (u : option Web.User) : string :=
  match u with
  | Some x => Auth.toString (Web.id x)
  | None => "undefined"
  end.

Section Environment.
(** String.prototype.trim *)
Variable trim : string -> string.
(** The n-th clock reading of the handler, by [Date.now()] or [new Date()]. *)
Variable clock : nat -> Z.
(** The n-th value of [Math.random()] as the template prints it. *)
Variable random : nat -> string.
(** useAuth().user *)
Variable auth_user : option Web.User.

Definition sendMessage (fetched : Fetched SendData) (st : State) : Run :=
  if String.eqb (trim (inputMessage st)) "" || loading st
  then {| during := st; final := st; sent := [] |}
  else
    let userMessage :=
      {| id := Auth.toString (clock 0%nat); content := inputMessage st;
         sender := user; timestamp := clock 1%nat |} in
    let waiting :=
      {| messages := messages st ++ [userMessage]; inputMessage := "";
         loading := true; sessionId := sessionId st |} in
    let request :=
      {| url := "/api/chat/send-simple";
         body := [("message", inputMessage st); ("sessionId", sessionId st)] |} in
    let errorMessage :=
      {| id := Auth.toString (clock 2%nat + 1); content := apology;
         sender := bot; timestamp := clock 3%nat |} in
    let reply :=
      match fetched with
      | responds status json =>
          if ok status
          then match json with
               | Web.Returns data =>
                   {| id := Auth.toString (clock 2%nat + 1);
                      content := response data; sender := bot;
                      timestamp := clock 3%nat |}
               | Web.Throws _ => errorMessage
               end
          else errorMessage
      | rejects => errorMessage
      end in
    {| during := waiting;
       final := {| messages := messages waiting ++ [reply]; inputMessage := "";
                   loading := false; sessionId := sessionId st |};
       sent := [request] |}.

Definition clearChat (st : State) : State :=
  {| messages := [];
     inputMessage := inputMessage st;
     loading := loading st;
     sessionId := ("session-" ++ user_id_text auth_user ++ "-"
                   ++ Auth.toString (clock 0%nat))%string |}.

(** The bot message made from the n-th row that passed the filter. *)
Definition botMessage (n : nat) (msg : Conversations.ConversationMessage)
  : ChatMessage :=
  {| id := ("db-" ++ Auth.toString (clock n) ++ "-" ++ random n)%string;
     content := Conversations.message msg;
     sender := bot;
     timestamp := match Conversations.created_at msg with
                  | Some t => t
                  | None => 0
                  end |}.

Fixpoint botMessages_from (n : nat) (rows : list Conversations.ConversationMessage)
  : list ChatMessage :=
  match rows with
  | [] => []
  | msg :: rows' => botMessage n msg :: botMessages_from (S n) rows'
  end.

Definition checkHistory (fetched : Fetched CheckData) (st : State) : Run :=
  if String.eqb (sessionId st) ""
  then {| during := st; final := st; sent := [] |}
  else
    let workflowId :=
      (sessionId st ++ "-user-" ++ user_id_text auth_user)%string in
    let request :=
      {| url := "/api/chat/check-response"; body := [("workflowId", workflowId)] |} in
    let after :=
      match fetched with
      | responds status (Web.Returns data) =>
          if ok status
          then match newMessages data with
               | Some rows =>
                   if Nat.ltb 0 (List.length rows)
                   then
                     let botMessages :=
                       botMessages_from 0
                         (filter SendAndWait.is_response rows) in
                     if Nat.ltb 0 (List.length botMessages)
                     then {| messages := messages st ++ botMessages;
                             inputMessage := inputMessage st;
                             loading := loading st;
                             sessionId := sessionId st |}
                     else st
                   else st
               | None => st
               end
          else st
      | responds status (Web.Throws _) => st
      | rejects => st
      end in
    {| during := st; final := after; sent := [request] |}.

End Environment.

End ChatInterfaceSimple.

(** ** web-ui/src/components/HistoryViewer.tsx *)
Module HistoryViewer.
Import Fetch.

(** The state of the component.  [conversations] is [None] when the
    assignment stored undefined, the [conversations] field missing from the
    JSON. *)
Record State : Type := {
  conversations : option (list Web.Listing);
  selectedConversation : option Web.Conversation;
  loading : bool;
  detailLoading : bool
}.

Definition initial : State :=
  {| conversations := Some []; selectedConversation := None;
     loading := true; detailLoading := false |}.

(** data.conversations *)
Definition data_conversations (b : Web.Body) : option (list Web.Listing) :=
  match b with
  | Web.conversations_body l => Some l
  | _ => None
  end.

(** data.conversation: null and a missing field both leave nothing
    selected. *)
Definition data_conversation (b : Web.Body) : option Web.Conversation :=
  match b with
  | Web.conversation_body c => c
  | _ => None
  end.

Definition loadConversations (fetched : Fetched Web.Body) (st : State) : State :=
  let st' :=
    match fetched with
    | responds status (Web.Returns data) =>
        if ok status
        then {| conversations := data_conversations data;
                selectedConversation := selectedConversation st;
                loading := loading st; detailLoading := detailLoading st |}
        else st
    | responds status (Web.Throws _) => st
    | rejects => st
    end in
  {| conversations := conversations st';
     selectedConversation := selectedConversation st';
     loading := false; detailLoading := detailLoading st' |}.

Definition loadConversationDetail (fetched : Fetched Web.Body) (st : State)
  : State :=
  let st' :=
    match fetched with
    | responds status (Web.Returns data) =>
        if ok status
        then {| conversations := conversations st;
                selectedConversation := data_conversation data;
                loading := loading st; detailLoading := true |}
        else st
    | responds status (Web.Throws _) => st
    | rejects => st
    end in
  {| conversations := conversations st';
     selectedConversation := selectedConversation st';
     loading := loading st'; detailLoading := false |}.

(** What the fetch of the history URL gives when the history route serves
    it: the browser sends the token cookie, and the route reads back the
    workflowId that [encodeURIComponent] put in the URL. *)
Definition fetch_history (verifyToken : string -> Web.Ext (option Web.Decoded))
           (getUserById : Z -> Web.Ext (option Web.User))
           (pool : nat -> option Web.Database)
           (token : option string) (workflowId : option string)
  : Fetched Web.Body :=
  match fst (History.GET verifyToken getUserById pool
               {| Web.cookies_token := token;
                  Web.json := Web.Throws "no body";
                  Web.searchParams_workflowId := workflowId |} []) with
  | Web.Value r => responds (Web.status r) (Web.Returns (Web.body r))
  | _ => rejects
  end.

End HistoryViewer.

(* ===================================================================== *)
(** * Column types of a stored turn                                        *)
(* ===================================================================== *)

Module Typing.
Import Conversations.

Definition in_integer (z : Z) : Prop := INT_MIN <= z <= INT_MAX.

(** What the column types of [public.conversations] say of a stored row:
    INTEGER for id and message_order, VARCHAR(255) and VARCHAR(50), counted
    in characters, for workflow_id and speaker. *)
Definition well_typed (r : ConversationMessage) : Prop :=
  in_integer (id r)
  /\ (char_length (workflow_id r) <= 255)%nat
  /\ (char_length (speaker r) <= 50)%nat
  /\ in_integer (message_order r).

(** The NOT NULL columns of an INSERT that are left without a value. *)
Definition misses_required (v : Insert) : Prop :=
  ins_id v = Null
  \/ resolve None (ins_workflow_id v) = None
  \/ resolve None (ins_speaker v) = None
  \/ resolve None (ins_message v) = None
  \/ resolve None (ins_message_order v) = None.

(** Several INSERTs, one after the other, each with its time. *)
Definition insert_all (t : Table) (vs : list (Z * Insert)) : Table :=
  fold_left (fun t x => snd (insert t (fst x) (snd x))) vs t.

End Typing.

(* ===================================================================== *)
(** * Sample data                                                          *)
(* ===================================================================== *)

Module Sample.
Import Conversations.

(** A turn as a client of the store may send it. *)
Definition turn (w s m : string) (o u : Z) : Insert :=
  {| ins_id := Default; ins_workflow_id := Val w; ins_speaker := Val s;
     ins_message := Val m; ins_message_order := Val o;
     ins_created_at := Default; ins_user_id := Val u |}.

Definition one_turn : Table :=
  snd (insert empty 0 (turn "session-1" "user" "hello" 1 7)).

(** The same (workflow_id, message_order) sent a second time. *)
Definition same_order_twice : Table :=
  snd (insert one_turn 1 (turn "session-1" "response" "hi there" 1 7)).

Definition reply_turn : Table :=
  snd (insert empty 0 (turn "session-1" "response" "hi there" 1 7)).

Definition hello_row : ConversationMessage :=
  {| id := 1; workflow_id := "session-1"; speaker := "user";
     message := "hello"; message_order := 1; created_at := Some 0;
     user_id := Some 7 |}.

Definition reply_row : ConversationMessage :=
  {| id := 1; workflow_id := "session-1"; speaker := "response";
     message := "hi there"; message_order := 1; created_at := Some 0;
     user_id := Some 7 |}.

Definition submissions : list Writer.Submission :=
  [ {| Writer.sub_now := 0; Writer.sub_workflow_id := "session-1";
       Writer.sub_speaker := "user"; Writer.sub_message := "hello";
       Writer.sub_user_id := Some 7 |};
    {| Writer.sub_now := 1; Writer.sub_workflow_id := "session-2";
       Writer.sub_speaker := "user"; Writer.sub_message := "news?";
       Writer.sub_user_id := Some 8 |};
    {| Writer.sub_now := 2; Writer.sub_workflow_id := "session-1";
       Writer.sub_speaker := "response"; Writer.sub_message := "hi there";
       Writer.sub_user_id := Some 7 |} ].

Definition summarised : Summaries.Table :=
  snd (Summaries.upsertSummary Summaries.empty 0 "session-1" "first digest" (Some 7)).

Definition user7 : Web.User :=
  {| Web.id := 7; Web.email := "ada@example.org"; Web.name := "Ada";
     Web.created_at := "2025-01-01" |}.

Definition verifyToken (token : string) : Web.Ext (option Web.Decoded) :=
  if String.eqb token "good" then Web.Returns (Some {| Web.userId := 7 |})
  else Web.Returns None.

Definition getUserById (userId : Z) : Web.Ext (option Web.User) :=
  if Z.eqb userId 7 then Web.Returns (Some user7) else Web.Returns None.

Definition chat_request (token : option string) : Web.NextRequest :=
  {| Web.cookies_token := token;
     Web.json := Web.Returns {| Web.message := Some "What is new?";
                                Web.sessionId := Some "session-1" |};
     Web.searchParams_workflowId := Some "session-1" |}.

Definition listing_request : Web.NextRequest :=
  {| Web.cookies_token := Some "good";
     Web.json := Web.Throws "no body";
     Web.searchParams_workflowId := None |}.

Definition child_ok (command : string) (args : list string) : Web.ChildOutcome :=
  Web.close (Some 0) "Workflow started" "".

Definition child_failed (command : string) (args : list string) : Web.ChildOutcome :=
  Web.close (Some 1) "" "Traceback".

Definition db_same_order_twice : Web.Database :=
  {| Web.conversations := same_order_twice;
     Web.conversation_summaries := Summaries.empty |}.

(** A conversation that already has a reply when the next message comes. *)
Definition db_with_old_reply : Web.Database :=
  {| Web.conversations :=
       Writer.appendAll empty
         [ {| Writer.sub_now := 0; Writer.sub_workflow_id := "session-1";
              Writer.sub_speaker := "user"; Writer.sub_message := "hello";
              Writer.sub_user_id := Some 7 |};
           {| Writer.sub_now := 1; Writer.sub_workflow_id := "session-1";
              Writer.sub_speaker := "response"; Writer.sub_message := "hi there";
              Writer.sub_user_id := Some 7 |};
           {| Writer.sub_now := 2; Writer.sub_workflow_id := "session-1";
              Writer.sub_speaker := "user"; Writer.sub_message := "What is new?";
              Writer.sub_user_id := Some 7 |} ];
     Web.conversation_summaries := Summaries.empty |}.

Definition old_reply_row : ConversationMessage :=
  {| id := 2; workflow_id := "session-1"; speaker := "response";
     message := "hi there"; message_order := 2; created_at := Some 1;
     user_id := Some 7 |}.

(** The first query throws, the later ones find the conversation above. *)
Definition pool_count_down (n : nat) : option Web.Database :=
  match n with
  | O => None
  | S _ => Some db_with_old_reply
  end.

(** All queries find the conversation above. *)
Definition pool_up (n : nat) : option Web.Database := Some db_with_old_reply.

(** One second between two readings of the clock. *)
Definition clock_seconds (n : nat) : Z := Z.of_nat n * 1000.

(** Every query throws. *)
Definition pool_down (n : nat) : option Web.Database := None.

End Sample.

(** More sample data, for the further properties. *)
Module Scene.

(** An INSERT that leaves the speaker out. *)
Definition turn_without_speaker : Conversations.Insert :=
  {| Conversations.ins_id := Default;
     Conversations.ins_workflow_id := Val "session-1";
     Conversations.ins_speaker := Default;
     Conversations.ins_message := Val "hello";
     Conversations.ins_message_order := Val 1;
     Conversations.ins_created_at := Default;
     Conversations.ins_user_id := Val 7 |}.


Definition submission (now : Z) (speaker message : string) : Writer.Submission :=
  {| Writer.sub_now := now; Writer.sub_workflow_id := "session-1";
     Writer.sub_speaker := speaker; Writer.sub_message := message;
     Writer.sub_user_id := Some 7 |}.

(** The store when the second message of session-1 is submitted, with its
    summary. *)
Definition db_before : Web.Database :=
  {| Web.conversations :=
       Writer.appendAll Conversations.empty
         [ submission 0 "user" "hello"; submission 1 "response" "hi there" ];
     Web.conversation_summaries := Sample.summarised |}.

(** The store after the second message and its reply were persisted. *)
Definition db_after : Web.Database :=
  {| Web.conversations :=
       Writer.appendAll (Web.conversations db_before)
         [ submission 2 "user" "What is new?";
           submission 3 "response" "Not much" ];
     Web.conversation_summaries := Sample.summarised |}.

Definition new_reply_row : Conversations.ConversationMessage :=
  {| Conversations.id := 4; Conversations.workflow_id := "session-1";
     Conversations.speaker := "response"; Conversations.message := "Not much";
     Conversations.message_order := 4; Conversations.created_at := Some 3;
     Conversations.user_id := Some 7 |}.

(** The count sees the store before, the polls see it after. *)
Definition pool_before_after (n : nat) : option Web.Database :=
  match n with
  | O => Some db_before
  | S _ => Some db_after
  end.

Definition pool_after (n : nat) : option Web.Database := Some db_after.

(** A trim of the ASCII spaces at both ends. *)
Fixpoint drop_spaces (s : string) : string :=
  match s with
  | String " " s' => drop_spaces s'
  | _ => s
  end.

Fixpoint reverse (s : string) : string :=
  match s with
  | EmptyString => EmptyString
  | String c s' => (reverse s' ++ String c EmptyString)%string
  end.

Definition trim (s : string) : string :=
  reverse (drop_spaces (reverse (drop_spaces s))).

Definition random (n : nat) : string := "0.5".

Definition typing : ChatInterfaceSimple.State :=
  {| ChatInterfaceSimple.messages := [];
     ChatInterfaceSimple.inputMessage := "What is new?";
     ChatInterfaceSimple.loading := false;
     ChatInterfaceSimple.sessionId := "session-1" |}.

Definition viewing : HistoryViewer.State :=
  {| HistoryViewer.conversations := Some [];
     HistoryViewer.selectedConversation :=
       Some {| Web.workflow_id := "session-0"; Web.messages := [];
               Web.summary := None |};
     HistoryViewer.loading := false;
     HistoryViewer.detailLoading := false |}.

(** SET message = 'edited' *)
Definition set_edited (r : Conversations.ConversationMessage)
  : Conversations.ConversationMessage :=
  {| Conversations.id := Conversations.id r;
     Conversations.workflow_id := Conversations.workflow_id r;
     Conversations.speaker := Conversations.speaker r;
     Conversations.message := "edited";
     Conversations.message_order := Conversations.message_order r;
     Conversations.created_at := Conversations.created_at r;
     Conversations.user_id := Conversations.user_id r |}.

(** The letter e with an acute accent, two bytes in UTF-8. *)
Definition e_acute : string := String "195" (String "169" EmptyString).

(** The first test of the wait loop falls on the start time, and one second
    passes between two tests. *)
Definition clock_from_first_test (n : nat) : Z := Z.of_nat (Nat.pred n) * 1000.

(** Every poll returns the conversation without a new reply. *)
Definition pool_no_reply (n : nat) : option Web.Database :=
  Some Sample.db_with_old_reply.


End Scene.

(* ===================================================================== *)
(** * Properties of the turn store                                         *)
(* ===================================================================== *)

(** Splits a hypothesis about a chain of [rbind]s into its steps. *)
Ltac split_result H :=
  repeat match type of H with
         | rbind ?m _ = Ok _ =>
             let E := fresh "E" in
             destruct m eqn:E; simpl in H; [ | discriminate H ]
         | (if ?b then _ else _) = Ok _ =>
             let E := fresh "E" in
             destruct b eqn:E; [ | discriminate H ]
         end.

Section ConversationsFacts.
Import Conversations.

Lemma speaker_check_spec (s : string) :
  speaker_check s = true <-> s = "user" \/ s = "response".
Proof.
  unfold speaker_check. rewrite orb_true_iff, !String.eqb_eq. tauto.
Qed.

Lemma check_columns_speaker i w s m o c u r :
  check_columns i w s m o c u = Ok r -> speaker_check (speaker r) = true.
Proof.
  unfold check_columns. intros H. split_result H.
  injection H as <-. simpl. assumption.
Qed.

Lemma char_length_le_length s : (char_length s <= String.length s)%nat.
Proof.
  induction s as [ | c s IH ]; simpl; [ lia | ].
  destruct (is_continuation c); lia.
Qed.

Lemma VARCHAR_short n s :
  (String.length s <= n)%nat -> VARCHAR n s = Ok s.
Proof.
  intros H. unfold VARCHAR.
  pose proof (char_length_le_length s) as L.
  assert (E : Nat.leb (char_length s) n = true) by (apply Nat.leb_le; lia).
  rewrite E. reflexivity.
Qed.

Lemma take_chars_char_length n s :
  char_length (take_chars n s) = Nat.min n (char_length s).
Proof.
  revert n. induction s as [ | c s IH ]; intros n; simpl.
  - now rewrite Nat.min_0_r.
  - destruct (is_continuation c) eqn:E; simpl; rewrite ?E.
    + apply IH.
    + destruct n; simpl; rewrite ?E; [ reflexivity | ]. now rewrite IH.
Qed.

(** A value that VARCHAR(n) admits has at most [n] characters; it is the
    value given unless that had more. *)
Lemma VARCHAR_chars n s s' :
  VARCHAR n s = Ok s' ->
  (char_length s' <= n)%nat
  /\ (s' = s \/ (n < char_length s)%nat /\ char_length s' = n).
Proof.
  unfold VARCHAR. destruct (Nat.leb_spec (char_length s) n) as [ H | H ].
  - intros E. injection E as <-. auto.
  - destruct (all_spaces _); [ | discriminate ].
    intros E. injection E as <-. rewrite take_chars_char_length. lia.
Qed.

Lemma INTEGER_in_range z :
  INT_MIN <= z <= INT_MAX -> INTEGER z = Ok z.
Proof.
  intros [H1 H2]. unfold INTEGER.
  apply Z.leb_le in H1, H2. rewrite H1, H2. reflexivity.
Qed.

(** An INSERT leaves the stored rows as they are and adds the row it
    returns, or adds nothing. *)
Lemma insert_rows t now v :
  (exists r, fst (insert t now v) = Ok r
             /\ rows (snd (insert t now v)) = rows t ++ [r]
             /\ speaker_check (speaker r) = true)
  \/ (exists e, fst (insert t now v) = Err e
                /\ rows (snd (insert t now v)) = rows t).
Proof.
  unfold insert.
  destruct (ins_id v) as [ | | i ]; [ destruct (nextval (id_seq t)) as [ j | e ] | | ];
    simpl;
    try solve [ right; eexists; split; reflexivity ];
    match goal with
    | |- context [check_columns ?a ?b ?c ?d ?e ?f ?g] =>
        destruct (check_columns a b c d e f g) as [ r | e' ] eqn:E
    end; simpl;
    try solve [ right; eexists; split; reflexivity ];
    match goal with
    | |- context [pkey_free ?l ?x] => destruct (pkey_free l x)
    end; simpl;
    try solve [ right; eexists; split; reflexivity ];
    left; exists r; repeat split; eauto using check_columns_speaker.
Qed.

Lemma recheck_all_speaker rs rs' :
  recheck_all rs = Ok rs' ->
  Forall (fun r => speaker_check (speaker r) = true) rs'.
Proof.
  revert rs'. induction rs as [ | r rs IH ]; simpl; intros rs' H.
  - injection H as <-. constructor.
  - split_result H. injection H as <-. constructor.
    + unfold recheck in E. eauto using check_columns_speaker.
    + auto.
Qed.

Lemma update_rows t w s :
  rows (snd (update t w s)) = rows t
  \/ exists rs, recheck_all (map (fun r => if w r then s r else r) (rows t)) = Ok rs
                /\ rows (snd (update t w s)) = rs.
Proof.
  unfold update.
  destruct (recheck_all _) as [ rs | e ] eqn:E; simpl; [ | now left ].
  destruct (ids_distinct rs); simpl; [ right; eauto | now left ].
Qed.

(** The CHECK on speaker holds of every row of every table that
    statements can build. *)
Lemma reachable_speaker t :
  reachable t -> Forall (fun r => speaker_check (speaker r) = true) (rows t).
Proof.
  induction 1 as [ | t now v _ IH | t w s _ IH | t w _ IH ].
  - constructor.
  - destruct (insert_rows t now v) as [ (r & _ & -> & Hr) | (e & _ & ->) ];
      [ apply Forall_app; split; [ assumption | constructor; [ assumption | constructor ] ]
      | assumption ].
  - destruct (update_rows t w s) as [ -> | (rs & E & ->) ];
      [ assumption | eauto using recheck_all_speaker ].
  - simpl. apply Forall_forall. intros r Hr.
    apply filter_In in Hr. destruct Hr as [Hr _].
    rewrite Forall_forall in IH. auto.
Qed.

End ConversationsFacts.

Section InsertFacts.
Import Conversations.

Lemma INTEGER_ok z z' : INTEGER z = Ok z' -> z' = z /\ INT_MIN <= z <= INT_MAX.
Proof.
  unfold INTEGER. destruct ((INT_MIN <=? z) && (z <=? INT_MAX)) eqn:E; [ | discriminate ].
  intros H. injection H as <-. apply andb_true_iff in E. destruct E as [E1 E2].
  apply Z.leb_le in E1, E2. auto.
Qed.

Lemma coerce_NOT_NULL {A} (ty : A -> Result A) column v v' a :
  coerce ty v = Ok v' -> NOT_NULL column v' = Ok a ->
  exists x, v = Some x /\ ty x = Ok a.
Proof.
  destruct v as [ x | ]; simpl.
  - destruct (ty x) as [ x' | ] eqn:Ex; simpl; [ | discriminate ].
    intros E. injection E as <-. simpl. intros E. injection E as <-. eauto.
  - intros E. injection E as <-. discriminate.
Qed.

(** What an accepted column list was. *)
Lemma check_columns_inv i w s m o c u r :
  check_columns i w s m o c u = Ok r ->
  (exists i0, i = Some i0 /\ INTEGER i0 = Ok (id r))
  /\ (exists w0, w = Some w0 /\ VARCHAR 255 w0 = Ok (workflow_id r))
  /\ (exists s0, s = Some s0 /\ VARCHAR 50 s0 = Ok (speaker r))
  /\ m = Some (message r)
  /\ (exists o0, o = Some o0 /\ INTEGER o0 = Ok (message_order r))
  /\ user_id r = u
  /\ created_at r = c.
Proof.
  unfold check_columns. intros H. split_result H.
  injection H as <-. cbn [id workflow_id speaker message message_order
                           created_at user_id].
  repeat match goal with
         | H1 : coerce ?ty ?v = Ok ?x, H2 : NOT_NULL _ ?x = Ok ?a |- _ =>
             let H3 := fresh "C" in
             pose proof (coerce_NOT_NULL ty _ v x a H1 H2) as H3;
             clear H1 H2
         end.
  match goal with
  | H : NOT_NULL _ m = Ok ?a |- _ =>
      destruct m; simpl in H; [ injection H as -> | discriminate H ]
  end.
  repeat split; assumption || reflexivity.
Qed.

Lemma check_columns_values i w s m o c u r :
  check_columns i (Some w) s m (Some o) c u = Ok r ->
  (String.length w <= 255)%nat ->
  workflow_id r = w /\ message_order r = o.
Proof.
  intros H Hw. apply check_columns_inv in H.
  destruct H as (_ & (w0 & Ew & Hw0) & _ & _ & (o0 & Eo & Ho0) & _).
  injection Ew as <-. injection Eo as <-.
  rewrite (VARCHAR_short 255 w Hw) in Hw0. injection Hw0 as <-.
  apply INTEGER_ok in Ho0. destruct Ho0 as [-> _]. auto.
Qed.

Lemma rbind_error {A B} (m : Result A) (k : A -> Result B) e :
  rbind m k = Err e -> m = Err e \/ exists a, m = Ok a /\ k a = Err e.
Proof.
  destruct m as [ a | e' ]; simpl; [ eauto | ].
  intros E. injection E as ->. now left.
Qed.

Lemma coerce_INTEGER_error v e :
  coerce INTEGER v = Err e -> e = numeric_value_out_of_range.
Proof.
  destruct v as [ z | ]; simpl; [ | discriminate ].
  unfold INTEGER. destruct (_ && _); simpl; [ discriminate | ].
  intros E. now injection E as <-.
Qed.

Lemma coerce_VARCHAR_error n v e :
  coerce (VARCHAR n) v = Err e -> e = string_data_right_truncation n.
Proof.
  destruct v as [ s | ]; simpl; [ | discriminate ].
  unfold VARCHAR. destruct (Nat.leb _ _); simpl; [ discriminate | ].
  destruct (all_spaces _); simpl; [ discriminate | ].
  intros E. now injection E as <-.
Qed.

Lemma NOT_NULL_error {A} column (v : option A) e :
  NOT_NULL column v = Err e -> e = not_null_violation column.
Proof.
  destruct v; simpl; [ discriminate | ]. intros E. now injection E as <-.
Qed.

(** The checks of the columns report no uniqueness violation. *)
Lemma check_columns_no_unique_violation i w s m o c u constraint :
  check_columns i w s m o c u <> Err (unique_violation constraint).
Proof.
  unfold check_columns. intros H.
  repeat match type of H with
         | rbind _ _ = Err _ =>
             apply rbind_error in H;
             destruct H as [ H | (? & _ & H) ];
             [ first [ apply coerce_INTEGER_error in H
                     | apply coerce_VARCHAR_error in H
                     | apply NOT_NULL_error in H ];
               discriminate H | ]
         end.
  destruct (speaker_check _); discriminate H.
Qed.

Lemma insert_ok_values t now v w o r :
  ins_workflow_id v = Val w -> ins_message_order v = Val o ->
  (String.length w <= 255)%nat ->
  fst (insert t now v) = Ok r ->
  workflow_id r = w /\ message_order r = o.
Proof.
  intros Hw Ho Hlen. unfold insert. rewrite Hw, Ho. simpl.
  destruct (ins_id v) as [ | | i ]; [ destruct (nextval (id_seq t)) as [ j | e ] | | ];
    simpl; try discriminate;
    match goal with
    | |- context [check_columns ?a ?b ?c ?d ?e ?f ?g] =>
        destruct (check_columns a b c d e f g) as [ r' | e' ] eqn:E
    end; simpl; try discriminate;
    match goal with
    | |- context [pkey_free ?l ?x] => destruct (pkey_free l x)
    end; simpl; try discriminate;
    intros H; injection H as <-; eauto using check_columns_values.
Qed.

(** The only unique constraint an INSERT can report is the primary key. *)
Lemma insert_unique_violation t now v c :
  fst (insert t now v) = Err (unique_violation c) -> c = "conversations_pkey".
Proof.
  assert (Hc : forall i w s m o c' u,
             check_columns i w s m o c' u <> Err (unique_violation c))
    by (intros; apply check_columns_no_unique_violation).
  unfold insert.
  destruct (ins_id v) as [ | | i ];
    [ unfold nextval; destruct (id_seq t <? INT_MAX) | | ];
    simpl; try discriminate;
    match goal with
    | |- context [check_columns ?a ?b ?c ?d ?e ?f ?g] =>
        pose proof (Hc a b c d e f g);
        destruct (check_columns a b c d e f g) as [ r' | e' ] eqn:E
    end; simpl; try (intros H'; congruence);
    match goal with
    | |- context [pkey_free ?l ?x] => destruct (pkey_free l x)
    end; simpl; try discriminate;
    intros H'; injection H' as <-; reflexivity.
Qed.

(** A well-typed turn with an id fresh from the sequence is stored,
    whatever the stored rows are. *)
Lemma insert_fresh t now w s m o u :
  (String.length w <= 255)%nat ->
  speaker_check s = true ->
  INT_MIN <= o <= INT_MAX ->
  INT_MIN <= u <= INT_MAX ->
  0 <= id_seq t < INT_MAX ->
  pkey_free (rows t) (id_seq t + 1) = true ->
  let r := {| id := id_seq t + 1; workflow_id := w; speaker := s; message := m;
              message_order := o; created_at := Some now; user_id := Some u |} in
  insert t now {| ins_id := Default; ins_workflow_id := Val w;
                  ins_speaker := Val s; ins_message := Val m;
                  ins_message_order := Val o; ins_created_at := Default;
                  ins_user_id := Val u |}
  = (Ok r, {| rows := rows t ++ [r]; id_seq := id_seq t + 1 |}).
Proof.
  intros Hw Hs Ho Hu Hseq Hfree r.
  assert (Hs50 : (String.length s <= 50)%nat).
  { apply speaker_check_spec in Hs. destruct Hs as [-> | ->]; simpl; lia. }
  unfold insert, nextval. simpl.
  destruct (Z.ltb_spec (id_seq t) INT_MAX) as [ _ | Hge ]; [ | lia ].
  unfold check_columns. simpl.
  rewrite (INTEGER_in_range (id_seq t + 1)) by (unfold INT_MIN in *; lia). simpl.
  rewrite (VARCHAR_short 255 w Hw). simpl.
  rewrite (VARCHAR_short 50 s Hs50). simpl.
  rewrite (INTEGER_in_range o Ho). simpl.
  rewrite Hs. simpl. rewrite Hfree. reflexivity.
Qed.

End InsertFacts.

Section WriterFacts.
Import Conversations Writer.

Lemma iota_S n : iota (S n) = iota n ++ [Z.of_nat n + 1].
Proof.
  unfold iota. rewrite seq_S, map_app. simpl.
  do 2 f_equal. lia.
Qed.

Lemma iota_length n : List.length (iota n) = n.
Proof. unfold iota. now rewrite length_map, length_seq. Qed.

Lemma iota_bounds n z : In z (iota n) -> 1 <= z <= Z.of_nat n.
Proof.
  unfold iota. rewrite in_map_iff. intros (k & <- & Hk).
  apply in_seq in Hk. lia.
Qed.

Lemma iota_sorted n : StronglySorted Z.lt (iota n).
Proof.
  induction n as [ | n IH ].
  - constructor.
  - rewrite iota_S.
    assert (G : forall l x, StronglySorted Z.lt l ->
                            (forall z, In z l -> z < x) ->
                            StronglySorted Z.lt (l ++ [x])).
    { intros l x Hl. induction Hl as [ | a l Hl IHl Ha ]; intros Hx; simpl.
      - constructor; constructor.
      - constructor.
        + apply IHl. intros z Hz. apply Hx. now right.
        + apply Forall_app. split; [ assumption | ].
          constructor; [ apply Hx; now left | constructor ]. }
    apply G; [ assumption | ].
    intros z Hz. apply iota_bounds in Hz. lia.
Qed.

Lemma sorted_lt_NoDup (l : list Z) : StronglySorted Z.lt l -> NoDup l.
Proof.
  induction 1 as [ | a l _ IH Ha ]; constructor; [ | assumption ].
  intros Hin. rewrite Forall_forall in Ha. specialize (Ha a Hin). lia.
Qed.

Lemma contiguous_snoc l x :
  contiguous l -> x = Z.of_nat (List.length l) + 1 -> contiguous (l ++ [x]).
Proof.
  unfold contiguous. intros Hl ->.
  rewrite length_app. simpl. rewrite Nat.add_1_r, iota_S.
  now rewrite <- Hl.
Qed.

Lemma orders_of_snoc w rs i r :
  orders_of w {| rows := rs ++ [r]; id_seq := i |}
  = if String.eqb (workflow_id r) w
    then map message_order (turns_of w rs) ++ [message_order r]
    else map message_order (turns_of w rs).
Proof.
  unfold orders_of, turns_of. simpl. rewrite filter_app. simpl.
  destruct (String.eqb (workflow_id r) w).
  - now rewrite map_app.
  - now rewrite app_nil_r.
Qed.

(** One write by the sequencing writer keeps every conversation
    contiguous. *)
Lemma appendTurn_contiguous t s :
  (String.length (sub_workflow_id s) <= 255)%nat ->
  (forall w, contiguous (orders_of w t)) ->
  forall w, contiguous (orders_of w (snd (appendTurn t s))).
Proof.
  intros Hlen Hinv w. unfold appendTurn.
  set (v := {| ins_id := Default; ins_workflow_id := Val (sub_workflow_id s);
               ins_speaker := _; ins_message := _; ins_message_order := _;
               ins_created_at := _; ins_user_id := _ |}).
  destruct (insert_rows t (sub_now s) v) as [ (r & Hok & Hrows & _) | (e & _ & Hrows) ].
  - destruct (insert_ok_values t (sub_now s) v (sub_workflow_id s)
                (next_sequence t (sub_workflow_id s)) r eq_refl eq_refl Hlen Hok)
      as [Hw Ho].
    destruct (snd (insert t (sub_now s) v)) as [rs i] eqn:Et. simpl in Hrows. subst rs.
    rewrite orders_of_snoc. rewrite Hw.
    destruct (String.eqb_spec (sub_workflow_id s) w) as [ <- | Hne ].
    + apply contiguous_snoc; [ apply Hinv | ].
      rewrite Ho. unfold next_sequence. now rewrite length_map.
    + apply Hinv.
  - unfold orders_of. rewrite Hrows. apply Hinv.
Qed.

Lemma appendAll_contiguous_from t ss :
  Forall (fun s => (String.length (sub_workflow_id s) <= 255)%nat) ss ->
  (forall w, contiguous (orders_of w t)) ->
  forall w, contiguous (orders_of w (appendAll t ss)).
Proof.
  intros Hss. revert t. induction Hss as [ | s ss Hs _ IH ]; intros t Hinv.
  - exact Hinv.
  - simpl. apply IH. now apply appendTurn_contiguous.
Qed.

End WriterFacts.

(* ===================================================================== *)
(** * Claims about the turn store                                          *)
(* ===================================================================== *)

Section TurnStoreClaims.
Import Conversations Writer.

(** C1, as stated, fails: the store takes two turns of one conversation
    with the same message_order, so contiguity is not an invariant of the
    tables that statements can build. *)
Lemma store_admits_repeated_sequence_number :
  ~ (forall t, reachable t -> forall w, contiguous (orders_of w t)).
Proof.
  intros H.
  assert (R : reachable Sample.same_order_twice)
    by (apply reach_insert, reach_insert, reach_empty).
  specialize (H _ R "session-1"). vm_compute in H. discriminate H.
Qed.

(** C1, amended: turns numbered by a writer that gives each new turn of a
    conversation the number after its stored turns are contiguous from 1,
    strictly increasing and without duplicates, for every conversation and
    every interleaving of the writes of many conversations. *)
Theorem sequence_numbers_contiguous_under_sequencing_writer
        (ss : list Submission) (w : string) :
  Forall (fun s => (String.length (sub_workflow_id s) <= 255)%nat) ss ->
  contiguous (orders_of w (appendAll empty ss))
  /\ StronglySorted Z.lt (orders_of w (appendAll empty ss))
  /\ NoDup (orders_of w (appendAll empty ss)).
Proof.
  intros Hss.
  assert (C : contiguous (orders_of w (appendAll empty ss))).
  { apply appendAll_contiguous_from; [ assumption | ]. intros w'. reflexivity. }
  assert (S : StronglySorted Z.lt (orders_of w (appendAll empty ss))).
  { rewrite C. apply iota_sorted. }
  auto using sorted_lt_NoDup.
Qed.

(** The amended C1 on three writes of two conversations. *)
Lemma sequence_numbers_contiguous_sample :
  orders_of "session-1" (appendAll empty Sample.submissions) = [1; 2]
  /\ contiguous (orders_of "session-1" (appendAll empty Sample.submissions)).
Proof.
  split; [ reflexivity | ].
  apply (sequence_numbers_contiguous_under_sequencing_writer
           Sample.submissions "session-1").
  repeat constructor.
Defined.

(** C2, as stated, fails: a turn whose (workflow_id, message_order) is
    already stored is accepted. *)
Lemma repeated_pair_is_accepted :
  ~ (forall t now v r old,
        fst (insert t now v) = Ok r -> In old (rows t) ->
        ~ (workflow_id old = workflow_id r
           /\ message_order old = message_order r)).
Proof.
  intros H.
  refine (H Sample.one_turn 1 (Sample.turn "session-1" "response" "hi there" 1 7)
            _ _ eq_refl _ _).
  - left. reflexivity.
  - split; reflexivity.
Qed.

(** C2, amended: an INSERT into the store is insert-only (the stored rows
    stay and at most one is added); a well-typed turn with a fresh id is
    stored also when a stored turn has its (workflow_id, message_order);
    the only uniqueness the store reports is that of the primary key. *)
Theorem insert_only_without_order_conflict :
  (forall t now v,
      exists added, rows (snd (insert t now v)) = rows t ++ added
                    /\ (List.length added <= 1)%nat)
  /\ (forall t now w s m o u old,
         In old (rows t) -> workflow_id old = w -> message_order old = o ->
         (String.length w <= 255)%nat -> speaker_check s = true ->
         INT_MIN <= o <= INT_MAX -> INT_MIN <= u <= INT_MAX ->
         0 <= id_seq t < INT_MAX ->
         pkey_free (rows t) (id_seq t + 1) = true ->
         exists r,
           insert t now (Sample.turn w s m o u)
           = (Ok r, {| rows := rows t ++ [r]; id_seq := id_seq t + 1 |})
           /\ workflow_id r = w /\ message_order r = o)
  /\ (forall t now v c,
         fst (insert t now v) = Err (unique_violation c) ->
         c = "conversations_pkey").
Proof.
  split; [ | split ].
  - intros t now v.
    destruct (insert_rows t now v) as [ (r & _ & -> & _) | (e & _ & ->) ].
    + exists [r]. auto.
    + exists []. rewrite app_nil_r. auto.
  - intros t now w s m o u old _ _ _ Hw Hs Ho Hu Hseq Hfree.
    eexists. split; [ apply insert_fresh; assumption | ]. auto.
  - apply insert_unique_violation.
Qed.

(** The amended C2 on a reply sent with the sequence number of the stored
    user turn. *)
Lemma insert_only_without_order_conflict_sample :
  exists r,
    insert Sample.one_turn 1 (Sample.turn "session-1" "response" "hi there" 1 7)
    = (Ok r, {| rows := rows Sample.one_turn ++ [r];
                id_seq := id_seq Sample.one_turn + 1 |})
    /\ workflow_id r = "session-1" /\ message_order r = 1.
Proof.
  refine (proj1 (proj2 insert_only_without_order_conflict)
            Sample.one_turn 1 "session-1" "response" "hi there" 1 7
            Sample.hello_row _ eq_refl eq_refl _ eq_refl _ _ _ eq_refl).
  - left. reflexivity.
  - simpl. lia.
  - unfold INT_MIN, INT_MAX. lia.
  - unfold INT_MIN, INT_MAX. lia.
  - unfold INT_MAX. simpl. lia.
Defined.

(** C5, as stated, fails on both counts: 'assistant' is not storable while a
    stored row can have the speaker 'response', which is neither 'user' nor
    'assistant'; and a stored turn is not immutable, the store accepts an
    UPDATE that rewrites its message. *)
Lemma assistant_rejected_and_update_accepted :
  fst (insert empty 0 (Sample.turn "session-1" "assistant" "hi there" 1 7))
  = Err (check_violation "conversations_speaker_check")
  /\ ~ (forall t r, reachable t -> In r (rows t) ->
                    speaker r = "user" \/ speaker r = "assistant")
  /\ ~ (forall t where_ set r,
          reachable t -> In r (rows t) ->
          In r (rows (snd (update t where_ set)))).
Proof.
  assert (R : reachable Sample.reply_turn) by (apply reach_insert, reach_empty).
  split; [ reflexivity | split ].
  - intros H.
    destruct (H Sample.reply_turn _ R (or_introl eq_refl)) as [E | E];
      vm_compute in E; discriminate E.
  - intros H.
    specialize (H Sample.reply_turn (fun _ => true) Scene.set_edited
                  Sample.reply_row R (or_introl eq_refl)).
    vm_compute in H. destruct H as [ E | [] ]. discriminate E.
Qed.

Lemma insert_all_keeps_rows t vs :
  exists added, rows (Typing.insert_all t vs) = rows t ++ added.
Proof.
  revert t. induction vs as [ | [now v] vs IH ]; intros t.
  - exists []. simpl. now rewrite app_nil_r.
  - simpl. destruct (IH (snd (insert t now v))) as (added & ->).
    destruct (insert_rows t now v) as [ (r & _ & -> & _) | (e & _ & ->) ].
    + exists (r :: added). now rewrite <- app_assoc.
    + now exists added.
Qed.

(** C5, amended: every stored turn has the speaker 'user' or 'response'
    (the tag stored for the assistant), in every table that INSERT, UPDATE
    and DELETE can build; the speaker column admits exactly these two
    values; and a stored turn is left as it is, in its place, by every later
    INSERT.  (The store does not forbid an UPDATE of a stored turn.) *)
Theorem stored_speaker_is_user_or_response :
  (forall t r, reachable t -> In r (rows t) ->
               speaker r = "user" \/ speaker r = "response")
  /\ (forall t now v r, fst (insert t now v) = Ok r ->
                        speaker r = "user" \/ speaker r = "response")
  /\ (forall now w s m o u,
         (String.length w <= 255)%nat ->
         INT_MIN <= o <= INT_MAX ->
         ((exists r, fst (insert empty now (Sample.turn w s m o u)) = Ok r)
          <-> s = "user" \/ s = "response"))
  /\ (forall t vs n r,
         nth_error (rows t) n = Some r ->
         nth_error (rows (Typing.insert_all t vs)) n = Some r).
Proof.
  split; [ | split; [ | split ] ].
  - intros t r Ht Hr. apply speaker_check_spec.
    pose proof (reachable_speaker t Ht) as F. rewrite Forall_forall in F. auto.
  - intros t now v r Hok. apply speaker_check_spec.
    destruct (insert_rows t now v) as [ (r' & Hr' & _ & Hs) | (e & He & _) ];
      congruence.
  - intros now w s m o u Hw Ho. split.
    + intros (r & Hok).
      assert (C : exists i c,
                 check_columns i (Some w) (Some s) (Some m) (Some o) c (Some u)
                 = Ok r).
      { revert Hok. unfold insert, Sample.turn. simpl.
        match goal with
        | |- context [check_columns ?a ?b ?c ?d ?e ?f ?g] =>
            destruct (check_columns a b c d e f g) as [ r' | e' ] eqn:E
        end; simpl; [ | discriminate ].
        intros H. injection H as <-. eauto. }
      destruct C as (i & c & C).
      pose proof (check_columns_speaker _ _ _ _ _ _ _ _ C) as Hs.
      apply check_columns_inv in C.
      destruct C as (_ & _ & (s0 & Es & Hs0) & _).
      injection Es as <-.
      apply speaker_check_spec in Hs.
      apply VARCHAR_chars in Hs0.
      destruct Hs0 as [_ [ <- | [_ L] ] ]; [ exact Hs | exfalso ].
      destruct Hs as [ E | E ]; rewrite E in L; discriminate L.
    + intros Hs.
      assert (Hs' := Hs). apply speaker_check_spec in Hs'.
      assert (Hs50 : (String.length s <= 50)%nat)
        by (destruct Hs as [-> | ->]; simpl; lia).
      eexists. unfold insert, Sample.turn, nextval, check_columns. simpl.
      rewrite (VARCHAR_short 255 w Hw), (VARCHAR_short 50 s Hs50). simpl.
      rewrite (INTEGER_in_range o Ho). simpl. rewrite Hs'. reflexivity.
  - intros t vs n r Hn.
    destruct (insert_all_keeps_rows t vs) as (added & ->).
    rewrite nth_error_app1; [ exact Hn | ].
    apply nth_error_Some. congruence.
Qed.

(** The amended C5 on the table that holds one reply, before and after two
    more INSERTs. *)
Lemma stored_speaker_sample :
  (speaker Sample.reply_row = "user" \/ speaker Sample.reply_row = "response")
  /\ nth_error
       (rows (Typing.insert_all Sample.reply_turn
                [ (1, Sample.turn "session-1" "user" "thanks" 2 7);
                  (2, Sample.turn "session-1" "response" "welcome" 3 7) ]))
       0
     = Some Sample.reply_row.
Proof.
  split.
  - apply (proj1 stored_speaker_is_user_or_response
                 Sample.reply_turn Sample.reply_row).
    + apply reach_insert, reach_empty.
    + left. reflexivity.
  - apply (proj2 (proj2 (proj2 stored_speaker_is_user_or_response))
                 Sample.reply_turn _ 0%nat Sample.reply_row).
    reflexivity.
Defined.

End TurnStoreClaims.

(* ===================================================================== *)
(** * Properties of the summary store                                      *)
(* ===================================================================== *)

Section SummariesFacts.
Import Summaries.

Lemma workflow_id_free_spec rs w :
  workflow_id_free rs w = true <-> ~ In w (map workflow_id rs).
Proof.
  unfold workflow_id_free. rewrite forallb_forall, in_map_iff. split.
  - intros H (r & <- & Hr). specialize (H r Hr).
    rewrite String.eqb_refl in H. discriminate H.
  - intros H r Hr. destruct (String.eqb_spec (workflow_id r) w) as [E | E];
      [ exfalso; eauto | reflexivity ].
Qed.

Lemma keys_distinct_workflow_ids rs :
  keys_distinct rs = true -> NoDup (map workflow_id rs).
Proof.
  induction rs as [ | r rs IH ]; simpl; intros H.
  - constructor.
  - apply andb_true_iff in H. destruct H as [H H3].
    apply andb_true_iff in H. destruct H as [_ H2].
    constructor; [ now apply workflow_id_free_spec | auto ].
Qed.

Lemma pkey_free_app rs rs' i :
  pkey_free (rs ++ rs') i = pkey_free rs i && pkey_free rs' i.
Proof. unfold pkey_free. apply forallb_app. Qed.

Lemma workflow_id_free_app rs rs' w :
  workflow_id_free (rs ++ rs') w = workflow_id_free rs w && workflow_id_free rs' w.
Proof. unfold workflow_id_free. apply forallb_app. Qed.

Lemma keys_distinct_snoc rs r :
  keys_distinct rs = true ->
  pkey_free rs (id r) = true -> workflow_id_free rs (workflow_id r) = true ->
  keys_distinct (rs ++ [r]) = true.
Proof.
  induction rs as [ | x rs IH ]; simpl; intros H Hp Hw.
  - reflexivity.
  - apply andb_true_iff in H. destruct H as [H H3].
    apply andb_true_iff in H. destruct H as [H1 H2].
    apply andb_true_iff in Hp. destruct Hp as [Hp1 Hp2].
    apply andb_true_iff in Hw. destruct Hw as [Hw1 Hw2].
    rewrite pkey_free_app, workflow_id_free_app, H1, H2, IH by assumption.
    simpl. rewrite !andb_true_r.
    apply negb_true_iff in Hp1, Hw1.
    rewrite Z.eqb_sym, Hp1, String.eqb_sym, Hw1. reflexivity.
Qed.

Lemma pkey_free_filter rs p i :
  pkey_free rs i = true -> pkey_free (filter p rs) i = true.
Proof.
  unfold pkey_free. rewrite !forallb_forall. intros H r Hr.
  apply filter_In in Hr. apply H, Hr.
Qed.

Lemma workflow_id_free_filter rs p w :
  workflow_id_free rs w = true -> workflow_id_free (filter p rs) w = true.
Proof.
  unfold workflow_id_free. rewrite !forallb_forall. intros H r Hr.
  apply filter_In in Hr. apply H, Hr.
Qed.

Lemma keys_distinct_filter rs p :
  keys_distinct rs = true -> keys_distinct (filter p rs) = true.
Proof.
  induction rs as [ | r rs IH ]; simpl; intros H; [ reflexivity | ].
  apply andb_true_iff in H. destruct H as [H H3].
  apply andb_true_iff in H. destruct H as [H1 H2].
  destruct (p r); simpl; [ | auto ].
  rewrite pkey_free_filter, workflow_id_free_filter, IH by assumption.
  reflexivity.
Qed.

(** A change of rows that keeps both keys keeps them distinct. *)
Lemma keys_distinct_map rs f :
  (forall x, id (f x) = id x /\ workflow_id (f x) = workflow_id x) ->
  keys_distinct (map f rs) = keys_distinct rs.
Proof.
  intros Hf. induction rs as [ | r rs IH ]; simpl; [ reflexivity | ].
  rewrite IH. destruct (Hf r) as [-> ->].
  f_equal. f_equal.
  - unfold pkey_free. clear IH. induction rs as [ | x rs IH ]; simpl;
      [ reflexivity | ].
    rewrite IH. now destruct (Hf x) as [-> _].
  - unfold workflow_id_free. clear IH. induction rs as [ | x rs IH ]; simpl;
      [ reflexivity | ].
    rewrite IH. now destruct (Hf x) as [_ ->].
Qed.

Lemma propose_rows t now v :
  rows (snd (propose t now v)) = rows t.
Proof.
  unfold propose. destruct (ins_id v); [ destruct (nextval (id_seq t)) | | ];
    reflexivity.
Qed.

Lemma insert_keys_distinct t now v :
  keys_distinct (rows t) = true ->
  keys_distinct (rows (snd (insert t now v))) = true.
Proof.
  intros H. unfold insert.
  pose proof (propose_rows t now v) as P.
  destruct (propose t now v) as [[r | e] t1]; simpl in *; [ | now rewrite P ].
  destruct (pkey_free (rows t1) (id r)) eqn:Ep; simpl; [ | now rewrite P ].
  destruct (workflow_id_free (rows t1) (workflow_id r)) eqn:Ew; simpl;
    [ | now rewrite P ].
  rewrite P in *. now apply keys_distinct_snoc.
Qed.

Lemma update_keys_distinct t w s :
  keys_distinct (rows t) = true ->
  keys_distinct (rows (snd (update t w s))) = true.
Proof.
  intros H. unfold update.
  destruct (recheck_all _) as [ rs | e ]; simpl; [ | assumption ].
  destruct (keys_distinct rs) eqn:E; simpl; assumption.
Qed.

Lemma overwrite_keys r now x :
  id (overwrite r now x) = id x /\ workflow_id (overwrite r now x) = workflow_id x.
Proof. unfold overwrite. destruct (String.eqb _ _); auto. Qed.

Lemma upsert_keys_distinct t now w text u :
  keys_distinct (rows t) = true ->
  keys_distinct (rows (snd (upsertSummary t now w text u))) = true.
Proof.
  intros H. unfold upsertSummary.
  match goal with
  | |- context [propose t now ?v] =>
      pose proof (propose_rows t now v) as P;
      destruct (propose t now v) as [[r | e] t1]
  end; simpl in *; [ | now rewrite P ].
  destruct (workflow_id_free (rows t1) (workflow_id r)) eqn:Ew; simpl.
  - destruct (pkey_free (rows t1) (id r)) eqn:Ep; simpl; [ | now rewrite P ].
    rewrite P in *. now apply keys_distinct_snoc.
  - rewrite P.
    rewrite keys_distinct_map; [ assumption | apply overwrite_keys ].
Qed.

Lemma reachable_keys_distinct t :
  reachable t -> keys_distinct (rows t) = true.
Proof.
  induction 1 as [ | t now v _ IH | t w s _ IH | t w _ IH | t now w text u _ IH ].
  - reflexivity.
  - now apply insert_keys_distinct.
  - now apply update_keys_distinct.
  - simpl. now apply keys_distinct_filter.
  - now apply upsert_keys_distinct.
Qed.

Lemma filter_absent (rs : list ConversationSummary) w :
  ~ In w (map workflow_id rs) ->
  filter (fun r => String.eqb (workflow_id r) w) rs = [].
Proof.
  induction rs as [ | r rs IH ]; simpl; intros H; [ reflexivity | ].
  destruct (String.eqb_spec (workflow_id r) w) as [E | E].
  - exfalso. apply H. now left.
  - apply IH. intros Hin. apply H. now right.
Qed.

Lemma NoDup_filter_le_1 (rs : list ConversationSummary) w :
  NoDup (map workflow_id rs) ->
  (List.length (filter (fun r => String.eqb (workflow_id r) w) rs) <= 1)%nat.
Proof.
  induction rs as [ | r rs IH ]; simpl; intros H; [ lia | ].
  inversion H as [ | ? ? Hnotin Hnd ]; subst.
  destruct (String.eqb_spec (workflow_id r) w) as [E | E]; simpl; [ | auto ].
  rewrite filter_absent by (now rewrite <- E). simpl. lia.
Qed.

Lemma summaries_check_columns_values i w text c d u r :
  check_columns (Some i) (Some w) text c d u = Ok r ->
  (String.length w <= 255)%nat ->
  id r = i /\ workflow_id r = w /\ summary r = text.
Proof.
  unfold check_columns. intros H Hw. split_result H.
  injection H as <-. simpl.
  simpl in E. destruct (INTEGER i) as [ i' | ] eqn:Ei; [ | discriminate ].
  apply INTEGER_ok in Ei. destruct Ei as [-> _]. simpl in E. injection E as <-.
  simpl in E0. rewrite (VARCHAR_short 255 w Hw) in E0. simpl in E0.
  injection E0 as <-.
  simpl in E1, E2. injection E1 as <-. injection E2 as <-. auto.
Qed.

(** What the statement of the upsert proposes. *)
Lemma upsert_propose t now w text u :
  (String.length w <= 255)%nat ->
  let v := {| ins_id := Default; ins_workflow_id := Val w;
              ins_summary := Val text; ins_created_at := Default;
              ins_updated_at := Default;
              ins_user_id := match u with Some z => Val z | None => Null end |} in
  forall r t1, propose t now v = (Ok r, t1) ->
               rows t1 = rows t /\ id r = id_seq t + 1
               /\ workflow_id r = w /\ summary r = Some text.
Proof.
  intros Hw v r t1. unfold propose, v. simpl. unfold nextval.
  destruct (id_seq t <? INT_MAX); [ | discriminate ].
  intros H. injection H as H <-. simpl.
  apply summaries_check_columns_values in H; [ | assumption ].
  tauto.
Qed.

Lemma filter_overwrite_same r now rs :
  filter (fun x => String.eqb (workflow_id x) (workflow_id r))
         (map (overwrite r now) rs)
  = map (overwrite r now)
        (filter (fun x => String.eqb (workflow_id x) (workflow_id r)) rs).
Proof.
  induction rs as [ | x rs IH ]; simpl; [ reflexivity | ].
  rewrite (proj2 (overwrite_keys r now x)).
  destruct (String.eqb (workflow_id x) (workflow_id r)); simpl; now rewrite IH.
Qed.

Lemma filter_overwrite_other r now rs w' :
  w' <> workflow_id r ->
  filter (fun x => String.eqb (workflow_id x) w') (map (overwrite r now) rs)
  = filter (fun x => String.eqb (workflow_id x) w') rs.
Proof.
  intros Hne. induction rs as [ | x rs IH ]; simpl; [ reflexivity | ].
  rewrite (proj2 (overwrite_keys r now x)), IH.
  destruct (String.eqb_spec (workflow_id x) w') as [E | E]; [ | reflexivity ].
  f_equal. unfold overwrite.
  destruct (String.eqb_spec (workflow_id x) (workflow_id r)); [ congruence | reflexivity ].
Qed.

End SummariesFacts.

(* ===================================================================== *)
(** * Claim about the summary store                                        *)
(* ===================================================================== *)

Section SummaryStoreClaim.
Import Summaries.

(** C6: a conversation has at most one live summary row in every table that
    INSERT, UPDATE, DELETE and the upsert can build; an upsert that succeeds
    leaves exactly one row for the conversation, holding the new text,
    creating it when there was none and overwriting it otherwise, and leaves
    the rows of the other conversations as they were; an upsert that fails
    changes no row; it succeeds when the id is in the type's range, the
    sequence is not exhausted and, for a new row, the next id is free. *)
Theorem one_summary_row_with_upsert :
  (forall t w, reachable t -> (List.length (summaries_of w t) <= 1)%nat)
  /\ (forall t now w text u,
         reachable t -> (String.length w <= 255)%nat ->
         fst (upsertSummary t now w text u) = Ok tt ->
         (exists r, summaries_of w (snd (upsertSummary t now w text u)) = [r]
                    /\ summary r = Some text)
         /\ (forall w', w' <> w ->
                        summaries_of w' (snd (upsertSummary t now w text u))
                        = summaries_of w' t)
         /\ (summaries_of w t = [] ->
             List.length (rows (snd (upsertSummary t now w text u)))
             = S (List.length (rows t)))
         /\ (summaries_of w t <> [] ->
             List.length (rows (snd (upsertSummary t now w text u)))
             = List.length (rows t)))
  /\ (forall t now w text u e,
         fst (upsertSummary t now w text u) = Err e ->
         rows (snd (upsertSummary t now w text u)) = rows t)
  /\ (forall t now w text u,
         (String.length w <= 255)%nat ->
         0 <= id_seq t < INT_MAX ->
         (forall z, u = Some z -> INT_MIN <= z <= INT_MAX) ->
         (summaries_of w t = [] -> pkey_free (rows t) (id_seq t + 1) = true) ->
         fst (upsertSummary t now w text u) = Ok tt).
Proof.
  split; [ | split; [ | split ] ].
  - intros t w Ht. unfold summaries_of.
    apply NoDup_filter_le_1, keys_distinct_workflow_ids, reachable_keys_distinct, Ht.
  - intros t now w text u Ht Hw.
    pose proof (upsert_propose t now w text u Hw) as P. cbv zeta in P.
    unfold upsertSummary.
    match goal with
    | |- context [propose t now ?v] => destruct (propose t now v) as [[r | e] t1]
    end; simpl; [ | discriminate ].
    destruct (P r t1 eq_refl) as (Hrows & Hid & Hwr & Hsum).
    pose proof (keys_distinct_workflow_ids _ (reachable_keys_distinct t Ht)) as ND.
    unfold summaries_of.
    destruct (workflow_id_free (rows t1) (workflow_id r)) eqn:Ew; simpl.
    + destruct (pkey_free (rows t1) (id r)); simpl; [ | discriminate ].
      intros _. rewrite Hrows in *. rewrite Hwr in Ew.
      apply workflow_id_free_spec in Ew.
      rewrite !filter_app, filter_absent by assumption. simpl.
      rewrite Hwr, String.eqb_refl.
      repeat split.
      * exists r. auto.
      * intros w' Hne. rewrite filter_app. simpl.
        rewrite Hwr.
        destruct (String.eqb_spec w w'); [ congruence | ]. now rewrite app_nil_r.
      * intros _. rewrite length_app. simpl. lia.
      * intros N. now contradiction N.
    + intros _. rewrite Hrows in *. simpl.
      pose proof (filter_overwrite_same r now (rows t)) as FO.
      rewrite Hwr in FO. rewrite FO. clear FO.
      pose proof (NoDup_filter_le_1 (rows t) w ND) as L1.
      destruct (filter (fun x => String.eqb (workflow_id x) w) (rows t))
        as [ | x [ | y l ] ] eqn:F; simpl in L1; [ | | lia ].
      * exfalso.
        assert (Hfree : workflow_id_free (rows t) w = true).
        { unfold workflow_id_free. apply forallb_forall. intros x Hx.
          destruct (String.eqb (workflow_id x) w) eqn:Ex; [ | reflexivity ].
          assert (Hin : In x (filter (fun x => String.eqb (workflow_id x) w) (rows t)))
            by (apply filter_In; auto).
          rewrite F in Hin. destruct Hin. }
        rewrite Hwr in Ew. congruence.
      * assert (Hx : workflow_id x = w).
        { assert (Hin : In x (filter (fun x => String.eqb (workflow_id x) w) (rows t)))
            by (rewrite F; now left).
          apply filter_In in Hin. now apply String.eqb_eq. }
        repeat split.
        -- exists (overwrite r now x). split; [ reflexivity | ].
           unfold overwrite. rewrite Hx, Hwr, String.eqb_refl. simpl. assumption.
        -- intros w' Hne. apply filter_overwrite_other. congruence.
        -- discriminate.
        -- intros _. apply length_map.
  - intros t now w text u e. unfold upsertSummary.
    match goal with
    | |- context [propose t now ?v] =>
        pose proof (propose_rows t now v) as P;
        destruct (propose t now v) as [[r | e'] t1]
    end; simpl in *; [ | auto ].
    destruct (workflow_id_free (rows t1) (workflow_id r)); simpl; [ | discriminate ].
    destruct (pkey_free (rows t1) (id r)); simpl; [ discriminate | auto ].
  - intros t now w text u Hw Hseq Hu Hfree.
    pose proof (upsert_propose t now w text u Hw) as P. cbv zeta in P.
    unfold upsertSummary.
    match goal with
    | |- context [propose t now ?v] =>
        destruct (propose t now v) as [[r | e] t1] eqn:Ep
    end; simpl.
    + destruct (P r t1 eq_refl) as (Hrows & Hid & Hwr & Hsum).
      destruct (workflow_id_free (rows t1) (workflow_id r)) eqn:Ew; simpl;
        [ | reflexivity ].
      rewrite Hrows, Hid, Hfree; [ reflexivity | ].
      rewrite Hrows, Hwr in Ew. apply workflow_id_free_spec in Ew.
      now apply filter_absent.
    + exfalso. revert Ep. unfold propose, nextval. simpl.
      destruct (Z.ltb_spec (id_seq t) INT_MAX) as [ _ | Hge ]; [ | lia ].
      unfold check_columns. simpl.
      rewrite (INTEGER_in_range (id_seq t + 1)) by (unfold INT_MIN in *; lia).
      simpl. rewrite (VARCHAR_short 255 w Hw). simpl. discriminate.
Qed.

(** C6 on a second upsert for a conversation that has a summary. *)
Lemma one_summary_row_sample :
  (List.length (summaries_of "session-1" Sample.summarised) <= 1)%nat
  /\ exists r,
      summaries_of "session-1"
        (snd (upsertSummary Sample.summarised 5 "session-1" "second digest" (Some 7)))
      = [r]
      /\ summary r = Some "second digest".
Proof.
  assert (R : reachable Sample.summarised) by (apply reach_upsert, reach_empty).
  split.
  - apply (proj1 one_summary_row_with_upsert Sample.summarised "session-1" R).
  - apply (proj1 (proj2 one_summary_row_with_upsert)
                 Sample.summarised 5 "session-1" "second digest" (Some 7) R).
    + simpl. lia.
    + reflexivity.
Defined.

End SummaryStoreClaim.

(* ===================================================================== *)
(** * Properties of the routes                                             *)
(* ===================================================================== *)

(** Runs the monad's operations as far as the known outcomes allow. *)
Ltac run :=
  cbv beta match
      delta [Web.bind Web.perform Web.ret Web.throw Web.of_ext Web.try_catch
             negb orb];
  cbn [Web.queries_in Web.readings_in Web.is_query Web.is_date_now
       filter List.length app].

Section AuthFacts.
Import Web Auth.

Variable verifyToken : string -> Ext (option Decoded).
Variable getUserById : Z -> Ext (option User).

(** The exit-code test fails on every code but 0, and on no code. *)
Lemma exited_zero_false (code : option Z) :
  code <> Some 0 -> exited_zero code = false.
Proof.
  intros H. destruct code as [ n | ]; [ | reflexivity ].
  simpl. apply Z.eqb_neq. intros ->. now apply H.
Qed.

(** A rejected request ends in the prelude with 401 or 404, before [k]. *)
Lemma authenticated_rejected request k log :
  rejected verifyToken getUserById request ->
  exists response log',
    authenticated verifyToken getUserById request k log = (Value response, log')
    /\ (status response = 401 \/ status response = 404)
    /\ (log' = log \/ exists userId, log' = log ++ [GetUserById userId]).
Proof.
  unfold rejected, authenticated.
  destruct (cookies_token request) as [ token | ].
  - intros [ -> | [ H | (decoded & H1 & H2) ] ].
    + simpl. eexists _, _. split; [ reflexivity | ]. simpl. auto.
    + destruct (String.eqb token "");
        [ eexists _, _; split; [ reflexivity | simpl; auto ] | ].
      unfold bind. rewrite H. simpl.
      eexists _, _. split; [ reflexivity | ]. simpl. auto.
    + destruct (String.eqb token "");
        [ eexists _, _; split; [ reflexivity | simpl; auto ] | ].
      unfold bind. rewrite H1. simpl. rewrite H2. simpl.
      eexists _, _. split; [ reflexivity | ]. simpl. eauto.
  - intros _. eexists _, _. split; [ reflexivity | ]. simpl. auto.
Qed.

(** A logged-in request runs [k] on its user, after the user lookup. *)
Lemma authenticated_logged_in request user k log :
  logged_in verifyToken getUserById request user ->
  authenticated verifyToken getUserById request k log
  = k user (log ++ [GetUserById (id user)]).
Proof.
  intros (token & decoded & Hc & Hne & Hv & Hid & Hu).
  unfold authenticated. rewrite Hc.
  apply String.eqb_neq in Hne. rewrite Hne.
  unfold bind. rewrite Hv. simpl. rewrite Hid, Hu. reflexivity.
Qed.

Lemma untouched_prelude log' :
  (log' = [] \/ exists userId, log' = [] ++ [GetUserById userId]) ->
  untouched log'.
Proof.
  intros [ -> | (userId & ->) ]; repeat constructor.
Qed.

End AuthFacts.

Section CountFacts.
Import Web Auth SendAndWait.

Variable pool : nat -> option Database.

(** The count query that throws is caught and counted as 0. *)
Lemma getMessageCount_failed workflowId userId log :
  pool (queries_in log) = None ->
  getMessageCount pool workflowId userId log
  = (Value 0%nat, log ++ [PoolQuery (SelectCount workflowId userId)]).
Proof.
  intros Hfail. unfold getMessageCount, pool_query. run.
  rewrite Hfail. reflexivity.
Qed.

End CountFacts.

Section RouteClaims.
Import Web Auth.

Variable verifyToken : string -> Ext (option Decoded).
Variable getUserById : Z -> Ext (option User).
Variable spawn : string -> list string -> ChildOutcome.
Variable cwd : string.
Variable pool : nat -> option Database.
Variable clock : nat -> Z.

(** C9: a request whose token cookie is absent, fails verification or
    resolves to no user gets 401 or 404 from the submit, the send-and-wait
    and the history route, and the route has then started no chatbot and
    sent no query to the conversation store. *)
Theorem rejected_request_touches_nothing (request : NextRequest) (fuel : nat) :
  rejected verifyToken getUserById request ->
  (exists response log,
      Send.POST verifyToken getUserById spawn cwd request [] = (Value response, log)
      /\ (status response = 401 \/ status response = 404) /\ untouched log)
  /\ (exists response log,
         SendAndWait.POST verifyToken getUserById spawn cwd pool clock fuel request []
         = (Value response, log)
         /\ (status response = 401 \/ status response = 404) /\ untouched log)
  /\ (exists response log,
         History.GET verifyToken getUserById pool request [] = (Value response, log)
         /\ (status response = 401 \/ status response = 404) /\ untouched log).
Proof.
  intros H.
  unfold Send.POST, SendAndWait.POST, History.GET, try_catch.
  repeat split;
    match goal with
    | |- context [authenticated verifyToken getUserById request ?k []] =>
        destruct (authenticated_rejected verifyToken getUserById request k [] H)
          as (response & log' & E & Hs & Hl)
    end;
    exists response, log'; rewrite E;
    (split; [ reflexivity | split; [ assumption | now apply untouched_prelude ] ]).
Qed.

(** C8: for a logged-in request with a non-empty message and sessionId, the
    submit route answers 200 with the fixed acknowledgment when the child
    process exits with code 0, whatever the child wrote, and has then sent no
    query to the conversation store (the reply is read elsewhere); when the
    child exits with another code or with none, or cannot be started, it
    answers 500. *)
Theorem submit_acknowledges_or_fails (request : NextRequest) (user : User)
        (body : ChatBody) :
  logged_in verifyToken getUserById request user ->
  json request = Returns body ->
  truthy (message body) = true -> truthy (sessionId body) = true ->
  let args :=
    [ path_join [cwd; ".."; "bedrock"; "session"; "send_message.py"];
      (field (sessionId body) ++ "-user-" ++ toString (id user))%string;
      field (message body) ] in
  let log := [GetUserById (id user); RequestJson; Spawn "python" args] in
  (forall stdout stderr,
      spawn "python" args = close (Some 0) stdout stderr ->
      Send.POST verifyToken getUserById spawn cwd request []
      = (Value (NextResponse_json (response_body Send.acknowledgment) 200), log))
  /\ (forall code stdout stderr,
         spawn "python" args = close code stdout stderr ->
         code <> Some 0 ->
         Send.POST verifyToken getUserById spawn cwd request []
         = (Value (NextResponse_json (error_body "Internal server error") 500), log))
  /\ (forall error,
         spawn "python" args = child_error error ->
         Send.POST verifyToken getUserById spawn cwd request []
         = (Value (NextResponse_json (error_body "Internal server error") 500), log))
  /\ Forall (fun e => is_query e = false) log.
Proof.
  intros Hin Hjson Hm Hs args log.
  assert (E : forall out,
             Send.callPythonChatbot spawn cwd
               (field (sessionId body) ++ "-user-" ++ toString (id user))%string
               (field (message body))
               [GetUserById (id user); RequestJson] = (out, log) ->
             Send.POST verifyToken getUserById spawn cwd request []
             = (match out with
                | Value response =>
                    Value (NextResponse_json (response_body response) 200)
                | Thrown _ =>
                    Value (NextResponse_json (error_body "Internal server error") 500)
                | Pending => Pending
                end, log)).
  { intros out Hout. unfold Send.POST.
    run. rewrite (authenticated_logged_in verifyToken getUserById request user _ [] Hin).
    run. rewrite Hjson. run. rewrite Hm, Hs. run. rewrite Hout.
    destruct out; reflexivity. }
  repeat split.
  - intros stdout stderr Hsp. apply (E (Value Send.acknowledgment)).
    unfold Send.callPythonChatbot. run. fold args. rewrite Hsp. reflexivity.
  - intros code stdout stderr Hsp Hcode.
    apply (E (Thrown ("Python script failed with code " ++ code_toString code
                      ++ ": " ++ stderr)%string)).
    unfold Send.callPythonChatbot. run. fold args.
    rewrite Hsp, (exited_zero_false code Hcode). reflexivity.
  - intros error Hsp. apply (E (Thrown error)).
    unfold Send.callPythonChatbot. run. fold args. rewrite Hsp. reflexivity.
  - repeat constructor.
Qed.

End RouteClaims.

Section OrderFacts.
Import Web.
Import Conversations.

Lemma insert_by_order_perm r l : Permutation (r :: l) (insert_by_order r l).
Proof.
  induction l as [ | x l IH ]; simpl.
  - apply Permutation_refl.
  - destruct (message_order r <=? message_order x).
    + apply Permutation_refl.
    + eapply perm_trans; [ apply perm_swap | ]. now apply perm_skip.
Qed.

Lemma order_by_message_order_perm l : Permutation l (order_by_message_order l).
Proof.
  induction l as [ | r l IH ]; simpl.
  - apply perm_nil.
  - eapply perm_trans; [ apply perm_skip, IH | apply insert_by_order_perm ].
Qed.

Lemma insert_by_order_ascending r l :
  ascending l -> ascending (insert_by_order r l).
Proof.
  unfold ascending. induction 1 as [ | x l Hl IH Hx ]; simpl.
  - constructor; constructor.
  - destruct (Z.leb_spec (message_order r) (message_order x)) as [ Hle | Hgt ].
    + constructor; [ now constructor | ].
      constructor; [ assumption | ].
      eapply Forall_impl; [ | exact Hx ]. simpl. intros a Ha. lia.
    + constructor; [ assumption | ].
      eapply Permutation_Forall; [ apply insert_by_order_perm | ].
      constructor; [ lia | assumption ].
Qed.

Lemma order_by_message_order_ascending l : ascending (order_by_message_order l).
Proof.
  induction l as [ | r l IH ]; simpl.
  - constructor.
  - now apply insert_by_order_ascending.
Qed.

(** Rows already in ascending order come back as they are. *)
Lemma order_by_message_order_id l :
  ascending l -> order_by_message_order l = l.
Proof.
  unfold ascending. induction 1 as [ | r l Hl IH Hr ]; simpl; [ reflexivity | ].
  rewrite IH. destruct l as [ | x l' ]; simpl; [ reflexivity | ].
  inversion Hr as [ | ? ? Hx _ ]; subst.
  apply Z.leb_le in Hx. now rewrite Hx.
Qed.

Lemma strictly_ascending_is_ascending l : strictly_ascending l -> ascending l.
Proof.
  unfold strictly_ascending, ascending.
  induction 1 as [ | r l Hl IH Hr ]; constructor; [ assumption | ].
  eapply Forall_impl; [ | exact Hr ]. simpl. intros a Ha. lia.
Qed.

Lemma ascending_distinct_is_strict l :
  ascending l -> NoDup (map message_order l) -> strictly_ascending l.
Proof.
  unfold strictly_ascending, ascending.
  induction 1 as [ | r l Hl IH Hr ]; simpl; intros Hnd; constructor.
  - apply IH. now inversion Hnd.
  - inversion Hnd as [ | ? ? Hnotin _ ]; subst.
    rewrite Forall_forall in *. intros a Ha.
    specialize (Hr a Ha).
    assert (message_order a <> message_order r).
    { intros E. apply Hnotin. rewrite <- E. now apply in_map. }
    lia.
Qed.

End OrderFacts.

(* ===================================================================== *)
(** * Claims about the history route                                       *)
(* ===================================================================== *)

Section HistoryClaims.
Import Web Auth.

Variable verifyToken : string -> Ext (option Decoded).
Variable getUserById : Z -> Ext (option User).
Variable pool : nat -> option Database.

(** C7, as stated, fails: on a store that holds two turns of a conversation
    with the same message_order, the rows the history query returns are not
    strictly ascending. *)
Lemma history_not_strictly_ascending :
  ~ (forall db w u, strictly_ascending (select_messages db w u)).
Proof.
  intros H. specialize (H Sample.db_same_order_twice "session-1" 7).
  vm_compute in H.
  inversion H as [ | ? ? _ F ]; subst.
  inversion F as [ | ? ? Hlt _ ]; subst.
  discriminate Hlt.
Qed.

(** C7, amended: for a logged-in request with a workflowId whose two queries
    succeed, the history route answers 200 with the conversation's turns
    stored for that user, ordered by ascending message_order: a permutation
    of the stored turns in which message_order never decreases; strictly
    ascending when the stored message_order values are distinct; and in the
    order of persistence when the turns were persisted in strictly
    increasing message_order.  The wait loop of send-and-wait reads the
    same rows. *)
Theorem history_in_message_order (request : NextRequest) (user : User)
        (db db' : Database) :
  logged_in verifyToken getUserById request user ->
  truthy (searchParams_workflowId request) = true ->
  pool 0%nat = Some db -> pool 1%nat = Some db' ->
  let w := field (searchParams_workflowId request) in
  let stored :=
    filter (where_conversation w (id user))
           (Conversations.rows (conversations db)) in
  exists turns digest log,
    History.GET verifyToken getUserById pool request []
    = (Value (NextResponse_json
                (conversation_body
                   (Some {| workflow_id := w; messages := turns;
                            summary := digest |})) 200), log)
    /\ ascending turns
    /\ Permutation stored turns
    /\ (NoDup (map Conversations.message_order stored) -> strictly_ascending turns)
    /\ (strictly_ascending stored -> turns = stored)
    /\ run_query (SelectNewMessages w (id user)) db = turns.
Proof.
  intros Hin Hw H0 H1 w stored.
  exists (select_messages db w (id user)),
         (hd_error (run_query (SelectSummary (id user) w) db')).
  eexists. split; [ | repeat split ].
  - unfold History.GET.
    run. rewrite (authenticated_logged_in verifyToken getUserById request user _ [] Hin).
    rewrite Hw. unfold History.getConversation, History.pool_query.
    run. rewrite H0. run. rewrite H1. reflexivity.
  - apply order_by_message_order_ascending.
  - apply order_by_message_order_perm.
  - intros Hnd. apply ascending_distinct_is_strict.
    + apply order_by_message_order_ascending.
    + eapply Permutation_NoDup; [ | exact Hnd ].
      apply Permutation_map, order_by_message_order_perm.
  - intros Hs. apply order_by_message_order_id.
    now apply strictly_ascending_is_ascending.
Qed.

(** C4, as stated, fails: with every query of the store failing, the history
    route answers 200 with a null conversation, and 200 with an empty list
    of conversations. *)
Lemma failed_query_answers_200 :
  History.GET Sample.verifyToken Sample.getUserById Sample.pool_down
    (Sample.chat_request (Some "good")) []
  = (Value (NextResponse_json (conversation_body None) 200),
     [GetUserById 7; PoolQuery (SelectMessages 7 "session-1")])
  /\ History.GET Sample.verifyToken Sample.getUserById Sample.pool_down
       Sample.listing_request []
     = (Value (NextResponse_json (conversations_body []) 200),
        [GetUserById 7; PoolQuery (SelectListing 7)]).
Proof. split; reflexivity. Qed.

(** C4, amended: when a query of the store fails, the helper that sent it
    catches the error and returns default data: for a logged-in request the
    history route answers 200 with a null conversation when the query of the
    messages or of the summary fails, and 200 with an empty list when the
    query of the listing fails; [getMessageCount] returns 0 when its count
    query fails. *)
Theorem failed_query_yields_default_data (request : NextRequest) (user : User) :
  logged_in verifyToken getUserById request user ->
  (truthy (searchParams_workflowId request) = true ->
   pool 0%nat = None \/ pool 1%nat = None ->
   exists log,
     History.GET verifyToken getUserById pool request []
     = (Value (NextResponse_json (conversation_body None) 200), log)
     /\ Exists (fun e => is_query e = true) log)
  /\ (truthy (searchParams_workflowId request) = false ->
      pool 0%nat = None ->
      History.GET verifyToken getUserById pool request []
      = (Value (NextResponse_json (conversations_body []) 200),
         [GetUserById (id user); PoolQuery (SelectListing (id user))]))
  /\ (forall workflowId userId log,
         pool (queries_in log) = None ->
         SendAndWait.getMessageCount pool workflowId userId log
         = (Value 0%nat, log ++ [PoolQuery (SelectCount workflowId userId)])).
Proof.
  intros Hin. repeat split.
  - intros Hw Hfail. unfold History.GET.
    run. rewrite (authenticated_logged_in verifyToken getUserById request user _ [] Hin).
    rewrite Hw. unfold History.getConversation, History.pool_query. run.
    destruct (pool 0%nat) as [ db | ] eqn:E0.
    + destruct Hfail as [ Hfail | Hfail ]; [ discriminate Hfail | ].
      run. rewrite Hfail. eexists. split; [ reflexivity | ].
      right. left. reflexivity.
    + eexists. split; [ reflexivity | ]. right. left. reflexivity.
  - intros Hw Hfail. unfold History.GET.
    run. rewrite (authenticated_logged_in verifyToken getUserById request user _ [] Hin).
    rewrite Hw. unfold History.getAllConversations, History.pool_query. run.
    rewrite Hfail. reflexivity.
  - intros workflowId userId log Hfail.
    now apply getMessageCount_failed.
Qed.

End HistoryClaims.

(* ===================================================================== *)
(** * Properties of the wait loop                                          *)
(* ===================================================================== *)

Section WaitFacts.
Import Web Auth SendAndWait.

Variable pool : nat -> option Database.
Variable clock : nat -> Z.

Lemma queries_in_app l l' : queries_in (l ++ l') = (queries_in l + queries_in l')%nat.
Proof. unfold queries_in. now rewrite filter_app, length_app. Qed.

Lemma readings_in_app l l' :
  readings_in (l ++ l') = (readings_in l + readings_in l')%nat.
Proof. unfold readings_in. now rewrite filter_app, length_app. Qed.

(** The guard on the number of rows adds nothing to the search. *)
Lemma new_reply_guard n (messages : list Conversations.ConversationMessage) :
  (if Nat.ltb n (List.length messages)
   then find is_response (skipn n messages)
   else None)
  = find is_response (skipn n messages).
Proof.
  destruct (Nat.ltb_spec n (List.length messages)) as [ H | H ]; [ reflexivity | ].
  now rewrite skipn_all2.
Qed.

(** One turn of the loop. *)
Lemma waitLoop_S fuel w u n start log :
  waitLoop pool clock (S fuel) w u n start log
  = if clock (readings_in log) - start <? maxWaitTime
    then match pool (queries_in log) with
         | Some db =>
             match new_reply n (select_messages db w u) with
             | Some reply =>
                 (Value reply, log ++ [DateNow; PoolQuery (SelectNewMessages w u)])
             | None =>
                 waitLoop pool clock fuel w u n start
                          (log ++ [DateNow; PoolQuery (SelectNewMessages w u);
                                   SetTimeout pollInterval])
             end
         | None =>
             waitLoop pool clock fuel w u n start
                      (log ++ [DateNow; PoolQuery (SelectNewMessages w u)])
         end
    else (Value timeout_reply, log ++ [DateNow]).
Proof.
  cbn [waitLoop]. unfold Date_now, pool_query. run.
  destruct (clock (readings_in log) - start <? maxWaitTime); [ | reflexivity ].
  run. rewrite queries_in_app. cbn [queries_in filter is_query List.length].
  rewrite Nat.add_0_r.
  destruct (pool (queries_in log)) as [ db | ].
  - run. unfold new_reply. cbn [run_query].
    rewrite <- (new_reply_guard n (select_messages db w u)).
    destruct (Nat.ltb n (List.length (select_messages db w u))).
    + destruct (find is_response (skipn n (select_messages db w u))); run;
        rewrite <- !app_assoc; reflexivity.
    + run. rewrite <- !app_assoc. reflexivity.
  - run. rewrite <- !app_assoc. reflexivity.
Qed.

(** The loop never throws. *)
Lemma waitLoop_never_throws fuel w u n start log error :
  fst (waitLoop pool clock fuel w u n start log) <> Thrown error.
Proof.
  revert log. induction fuel as [ | fuel IH ]; intros log.
  - simpl. discriminate.
  - rewrite waitLoop_S.
    destruct (_ <? _); [ | simpl; discriminate ].
    destruct (pool _) as [ db | ]; [ | apply IH ].
    destruct (new_reply _ _); [ simpl; discriminate | apply IH ].
Qed.



End WaitFacts.

(* ===================================================================== *)
(** * Claims about the send-and-wait route                                 *)
(* ===================================================================== *)

Section SendAndWaitClaims.
Import Web Auth SendAndWait.

Variable verifyToken : string -> Ext (option Decoded).
Variable getUserById : Z -> Ext (option User).
Variable spawn : string -> list string -> ChildOutcome.
Variable cwd : string.
Variable pool : nat -> option Database.
Variable clock : nat -> Z.

(** C10: when the count query of [getMessageCount] throws, the function
    returns 0; the send-and-wait route then goes on, and once the chatbot
    process has exited with code 0 the first poll inside the window that
    succeeds returns the message of the first 'response' row of the whole
    conversation, whichever rows were stored before the submission. *)
Theorem failed_count_returns_stored_reply
        (request : NextRequest) (user : User) (body : ChatBody)
        (db : Database) (old : Conversations.ConversationMessage)
        (stdout stderr : string) (fuel : nat) :
  logged_in verifyToken getUserById request user ->
  json request = Returns body ->
  truthy (message body) = true -> truthy (sessionId body) = true ->
  pool 0%nat = None ->
  spawn "python"
        [ path_join [cwd; ".."; "chatbot_backend"; "send_message.py"];
          field (sessionId body); field (message body); toString (id user) ]
  = close (Some 0) stdout stderr ->
  clock 1%nat - clock 0%nat < maxWaitTime ->
  pool 1%nat = Some db ->
  find is_response (select_messages db (field (sessionId body)) (id user))
  = Some old ->
  (forall workflowId userId log,
      pool (queries_in log) = None ->
      getMessageCount pool workflowId userId log
      = (Value 0%nat, log ++ [PoolQuery (SelectCount workflowId userId)]))
  /\ fst (POST verifyToken getUserById spawn cwd pool clock (S fuel) request [])
     = Value (NextResponse_json
                (response_body (Conversations.message old)) 200).
Proof.
  intros Hin Hjson Hm Hs Hcount Hsp Hwin Hpoll Hold.
  split; [ intros; now apply getMessageCount_failed | ].
  unfold POST.
  run. rewrite (authenticated_logged_in verifyToken getUserById request user _ [] Hin).
  run. rewrite Hjson. run. rewrite Hm, Hs. run.
  rewrite getMessageCount_failed by exact Hcount.
  unfold callPythonChatbot. run. rewrite Hsp. cbn [exited_zero Z.eqb]. run.
  unfold waitForResponse, Date_now. run.
  rewrite waitLoop_S.
  cbn [readings_in queries_in filter is_date_now is_query List.length].
  apply Z.ltb_lt in Hwin. rewrite Hwin, Hpoll.
  unfold new_reply. cbn [skipn]. rewrite Hold. reflexivity.
Qed.

End SendAndWaitClaims.

(* ===================================================================== *)
(** * The route claims on sample requests                                  *)
(* ===================================================================== *)

Section RouteSamples.
Import Web Auth.

(** The sample request with the good token is logged in as user 7. *)
Lemma sample_logged_in :
  logged_in Sample.verifyToken Sample.getUserById
            (Sample.chat_request (Some "good")) Sample.user7.
Proof.
  exists "good", {| userId := 7 |}.
  repeat split; try reflexivity. discriminate.
Defined.

(** C9 on a request without a token cookie. *)
Lemma rejected_request_sample :
  exists response log,
    Send.POST Sample.verifyToken Sample.getUserById Sample.child_ok "/srv/web-ui"
              (Sample.chat_request None) []
    = (Value response, log)
    /\ (status response = 401 \/ status response = 404) /\ untouched log.
Proof.
  apply (proj1 (rejected_request_touches_nothing
                  Sample.verifyToken Sample.getUserById Sample.child_ok
                  "/srv/web-ui" Sample.pool_down Sample.clock_seconds
                  (Sample.chat_request None) 3 I)).
Defined.

(** C8 on a request whose child process exits with code 0, and on the same
    request when the child exits with code 1. *)
Lemma submit_acknowledges_sample :
  Send.POST Sample.verifyToken Sample.getUserById Sample.child_ok "/srv/web-ui"
            (Sample.chat_request (Some "good")) []
  = (Value (NextResponse_json (response_body Send.acknowledgment) 200),
     [ GetUserById 7; RequestJson;
       Spawn "python" [ "/srv/bedrock/session/send_message.py";
                        "session-1-user-7"; "What is new?" ] ])
  /\ Send.POST Sample.verifyToken Sample.getUserById Sample.child_failed
               "/srv/web-ui" (Sample.chat_request (Some "good")) []
     = (Value (NextResponse_json (error_body "Internal server error") 500),
        [ GetUserById 7; RequestJson;
          Spawn "python" [ "/srv/bedrock/session/send_message.py";
                           "session-1-user-7"; "What is new?" ] ]).
Proof.
  split.
  - apply (proj1 (submit_acknowledges_or_fails
                    Sample.verifyToken Sample.getUserById Sample.child_ok
                    "/srv/web-ui" (Sample.chat_request (Some "good")) Sample.user7
                    {| message := Some "What is new?"; sessionId := Some "session-1" |}
                    sample_logged_in eq_refl eq_refl eq_refl)
                 "Workflow started" "" eq_refl).
  - apply (proj1 (proj2 (submit_acknowledges_or_fails
                           Sample.verifyToken Sample.getUserById Sample.child_failed
                           "/srv/web-ui" (Sample.chat_request (Some "good"))
                           Sample.user7
                           {| message := Some "What is new?";
                              sessionId := Some "session-1" |}
                           sample_logged_in eq_refl eq_refl eq_refl))
                 (Some 1) "" "Traceback" eq_refl).
    discriminate.
Defined.

(** The amended C7 on a conversation of three turns. *)
Lemma history_in_message_order_sample :
  exists turns digest log,
    History.GET Sample.verifyToken Sample.getUserById Sample.pool_up
                (Sample.chat_request (Some "good")) []
    = (Value (NextResponse_json
                (conversation_body
                   (Some {| workflow_id := "session-1"; messages := turns;
                            summary := digest |})) 200), log)
    /\ ascending turns.
Proof.
  destruct (history_in_message_order
              Sample.verifyToken Sample.getUserById Sample.pool_up
              (Sample.chat_request (Some "good")) Sample.user7
              Sample.db_with_old_reply Sample.db_with_old_reply
              sample_logged_in eq_refl eq_refl eq_refl)
    as (turns & digest & log & E & A & _).
  exists turns, digest, log. split; assumption.
Defined.

(** The amended C4 on a store whose every query throws. *)
Lemma failed_query_sample :
  exists log,
    History.GET Sample.verifyToken Sample.getUserById Sample.pool_down
                (Sample.chat_request (Some "good")) []
    = (Value (NextResponse_json (conversation_body None) 200), log)
    /\ Exists (fun e => is_query e = true) log.
Proof.
  apply (proj1 (failed_query_yields_default_data
                  Sample.verifyToken Sample.getUserById Sample.pool_down
                  (Sample.chat_request (Some "good")) Sample.user7
                  sample_logged_in)
               eq_refl (or_introl eq_refl)).
Defined.

(** C10 on a conversation that has an older reply: the count query throws
    and the older reply comes back as the answer to the new message. *)
Lemma failed_count_sample :
  fst (SendAndWait.POST Sample.verifyToken Sample.getUserById Sample.child_ok
         "/srv/web-ui" Sample.pool_count_down Sample.clock_seconds 3
         (Sample.chat_request (Some "good")) [])
  = Value (NextResponse_json (response_body "hi there") 200).
Proof.
  apply (proj2 (failed_count_returns_stored_reply
                  Sample.verifyToken Sample.getUserById Sample.child_ok
                  "/srv/web-ui" Sample.pool_count_down Sample.clock_seconds
                  (Sample.chat_request (Some "good")) Sample.user7
                  {| message := Some "What is new?"; sessionId := Some "session-1" |}
                  Sample.db_with_old_reply Sample.old_reply_row
                  "Workflow started" "" 2
                  sample_logged_in eq_refl eq_refl eq_refl eq_refl eq_refl
                  eq_refl eq_refl eq_refl)).
Defined.

End RouteSamples.

(* ===================================================================== *)
(** * Further properties of the turn store                                 *)
(* ===================================================================== *)

Section TurnStoreTyping.
Import Conversations Typing.

Lemma check_columns_well_typed i w s m o c u r :
  check_columns i w s m o c u = Ok r -> well_typed r.
Proof.
  intros H. apply check_columns_inv in H.
  destruct H as ((i0 & _ & Hi) & (w0 & _ & Hw) & (s0 & _ & Hs) & _
                 & (o0 & _ & Ho) & _).
  apply INTEGER_ok in Hi, Ho. apply VARCHAR_chars in Hw, Hs.
  unfold well_typed, in_integer.
  destruct Hi as [-> Hi]. destruct Ho as [-> Ho].
  destruct Hw as [Hw _]. destruct Hs as [Hs _]. auto.
Qed.

(** An INSERT stores the row it checked, under a free id, or stores
    nothing. *)
Lemma insert_inv t now v :
  (exists r i,
      fst (insert t now v) = Ok r
      /\ rows (snd (insert t now v)) = rows t ++ [r]
      /\ check_columns i
           (resolve None (ins_workflow_id v)) (resolve None (ins_speaker v))
           (resolve None (ins_message v)) (resolve None (ins_message_order v))
           (resolve (Some now) (ins_created_at v))
           (resolve None (ins_user_id v)) = Ok r
      /\ (ins_id v = Null -> i = None)
      /\ pkey_free (rows t) (id r) = true)
  \/ (exists e, fst (insert t now v) = Err e
                /\ rows (snd (insert t now v)) = rows t).
Proof.
  unfold insert.
  destruct (ins_id v) as [ | | i ]; [ destruct (nextval (id_seq t)) as [ j | e ] | | ];
    simpl;
    try solve [ right; eexists; split; reflexivity ];
    match goal with
    | |- context [check_columns ?a ?b ?c ?d ?e ?f ?g] =>
        destruct (check_columns a b c d e f g) as [ r | e' ] eqn:E
    end; simpl;
    try solve [ right; eexists; split; reflexivity ];
    match goal with
    | |- context [pkey_free ?l ?x] => destruct (pkey_free l x) eqn:F
    end; simpl;
    try solve [ right; eexists; split; reflexivity ];
    left; exists r; eexists;
    (split; [ reflexivity | split; [ reflexivity | split; [ exact E | split ] ] ]);
    try exact F; try reflexivity; intros N; discriminate N.
Qed.

Lemma conversations_pkey_free_app rs rs' i :
  pkey_free (rs ++ rs') i = pkey_free rs i && pkey_free rs' i.
Proof. unfold pkey_free. apply forallb_app. Qed.

Lemma ids_distinct_snoc rs r :
  ids_distinct rs = true -> pkey_free rs (id r) = true ->
  ids_distinct (rs ++ [r]) = true.
Proof.
  induction rs as [ | x rs IH ]; simpl; intros H Hp; [ reflexivity | ].
  apply andb_true_iff in H. destruct H as [H1 H2].
  apply andb_true_iff in Hp. destruct Hp as [Hp1 Hp2].
  rewrite conversations_pkey_free_app, H1, IH by assumption. simpl.
  apply negb_true_iff in Hp1. rewrite Z.eqb_sym, Hp1. reflexivity.
Qed.

Lemma ids_distinct_filter rs p :
  ids_distinct rs = true -> ids_distinct (filter p rs) = true.
Proof.
  induction rs as [ | r rs IH ]; simpl; intros H; [ reflexivity | ].
  apply andb_true_iff in H. destruct H as [H1 H2].
  destruct (p r); simpl; [ | auto ].
  rewrite IH by assumption. rewrite andb_true_r.
  unfold pkey_free in *. rewrite forallb_forall in *.
  intros x Hx. apply filter_In in Hx. apply H1, Hx.
Qed.

Lemma ids_distinct_NoDup rs : ids_distinct rs = true -> NoDup (map id rs).
Proof.
  induction rs as [ | r rs IH ]; simpl; intros H; [ constructor | ].
  apply andb_true_iff in H. destruct H as [H1 H2].
  constructor; [ | auto ].
  rewrite in_map_iff. intros (x & Hx & Hin).
  unfold pkey_free in H1. rewrite forallb_forall in H1.
  specialize (H1 x Hin). rewrite Hx, Z.eqb_refl in H1. discriminate H1.
Qed.

Lemma recheck_all_well_typed rs rs' :
  recheck_all rs = Ok rs' -> Forall well_typed rs'.
Proof.
  revert rs'. induction rs as [ | r rs IH ]; simpl; intros rs' H.
  - injection H as <-. constructor.
  - split_result H. injection H as <-. constructor; [ | auto ].
    unfold recheck in E. eauto using check_columns_well_typed.
Qed.

(** X1: PRIMARY KEY (id).  In every table that INSERT, UPDATE and DELETE can
    build, no two stored turns have the same id. *)
Theorem stored_ids_are_distinct (t : Table) :
  reachable t -> NoDup (map id (rows t)).
Proof.
  intros Ht. apply ids_distinct_NoDup.
  induction Ht as [ | t now v _ IH | t w s _ IH | t w _ IH ].
  - reflexivity.
  - destruct (insert_inv t now v)
      as [ (r & i & _ & -> & _ & _ & F) | (e & _ & ->) ];
      [ now apply ids_distinct_snoc | assumption ].
  - unfold update. destruct (recheck_all _) as [ rs | e ]; simpl; [ | assumption ].
    destruct (ids_distinct rs) eqn:E; simpl; assumption.
  - simpl. now apply ids_distinct_filter.
Qed.

(** X2: the column types.  In every table that INSERT, UPDATE and DELETE can
    build, every stored turn has an id and a message_order in the INTEGER
    range, a workflow_id of at most 255 characters and a speaker of at most
    50 characters, the characters counted as PostgreSQL counts them in a
    UTF-8 text and not in bytes. *)
Theorem stored_rows_are_well_typed (t : Table) (r : ConversationMessage) :
  reachable t -> In r (rows t) -> well_typed r.
Proof.
  intros Ht. revert r. apply Forall_forall.
  induction Ht as [ | t now v _ IH | t w s _ IH | t w _ IH ].
  - constructor.
  - destruct (insert_inv t now v)
      as [ (r & i & _ & -> & C & _ & _) | (e & _ & ->) ]; [ | assumption ].
    apply Forall_app. split; [ assumption | ].
    constructor; [ eauto using check_columns_well_typed | constructor ].
  - destruct (update_rows t w s) as [ -> | (rs & E & ->) ];
      [ assumption | eauto using recheck_all_well_typed ].
  - simpl. apply Forall_forall. intros r Hr.
    apply filter_In in Hr. destruct Hr as [Hr _].
    rewrite Forall_forall in IH. auto.
Qed.

(** X3: NOT NULL.  An INSERT that gives no value, or NULL, to workflow_id,
    speaker, message or message_order, or an explicit NULL to id, is
    rejected and stores nothing. *)
Theorem insert_without_required_column_is_rejected
        (t : Table) (now : Z) (v : Insert) :
  misses_required v ->
  exists e, fst (insert t now v) = Err e
            /\ rows (snd (insert t now v)) = rows t.
Proof.
  intros Hmiss.
  destruct (insert_inv t now v) as [ (r & i & _ & _ & C & Hnull & _) | H ];
    [ exfalso | exact H ].
  apply check_columns_inv in C.
  destruct C as ((i0 & Hi & _) & (w0 & Hw & _) & (s0 & Hs & _) & Hm
                 & (o0 & Ho & _) & _).
  destruct Hmiss as [ H | [ H | [ H | [ H | H ] ] ] ]; try congruence.
  specialize (Hnull H). congruence.
Qed.

End TurnStoreTyping.

(* ===================================================================== *)
(** * Further properties of the summary store                              *)
(* ===================================================================== *)

Section SummaryStoreKeys.
Import Summaries.




End SummaryStoreKeys.

(* ===================================================================== *)
(** * Further properties of the submit route                               *)
(* ===================================================================== *)

(** Splits on the next outcome the route waits for. *)
Ltac next_case :=
  match goal with
  | |- context [match ?x with _ => _ end] =>
      lazymatch x with
      | context [match _ with _ => _ end] => fail
      | _ => destruct x eqn:?
      end
  | |- context [if ?x then _ else _] =>
      lazymatch x with
      | context [match _ with _ => _ end] => fail
      | context [if _ then _ else _] => fail
      | _ => destruct x eqn:?
      end
  end.

Section SubmitFacts.
Import Web Auth.

Variable verifyToken : string -> Ext (option Decoded).
Variable getUserById : Z -> Ext (option User).
Variable spawn : string -> list string -> ChildOutcome.
Variable cwd : string.

(** X5: the submit route always answers.  Whatever the cookie, the token
    check, the user lookup and the body are, and however the child process
    ends, the handler returns a response (no error escapes it) with status
    200, 400, 401, 404 or 500; it starts the chatbot at most once and never
    queries the conversation store. *)
Theorem submit_always_answers (request : NextRequest) :
  exists response log,
    Send.POST verifyToken getUserById spawn cwd request [] = (Value response, log)
    /\ In (status response) [200; 400; 401; 404; 500]
    /\ Forall (fun e => is_query e = false) log
    /\ (List.length (filter is_spawn log) <= 1)%nat.
Proof.
  unfold Send.POST, authenticated, Send.callPythonChatbot.
  run. repeat (next_case; run);
    eexists _, _; (split; [ reflexivity | ]);
    (split; [ simpl; tauto | ]);
    (split; [ repeat constructor | simpl; lia ]).
Qed.

End SubmitFacts.

(* ===================================================================== *)
(** * Further properties of the send-and-wait route                        *)
(* ===================================================================== *)

Section SendAndWaitFacts.
Import Web Auth SendAndWait.

Variable verifyToken : string -> Ext (option Decoded).
Variable getUserById : Z -> Ext (option User).
Variable spawn : string -> list string -> ChildOutcome.
Variable cwd : string.
Variable pool : nat -> option Database.
Variable clock : nat -> Z.

(** The loop only adds to the effects performed. *)
Lemma waitLoop_extends fuel w u n start log :
  exists added,
    snd (waitLoop pool clock fuel w u n start log) = log ++ added.
Proof.
  revert log. induction fuel as [ | fuel IH ]; intros log.
  - exists []. simpl. now rewrite app_nil_r.
  - rewrite waitLoop_S.
    destruct (_ <? _); [ | eexists; reflexivity ].
    destruct (pool _) as [ db | ].
    + destruct (new_reply _ _); [ eexists; reflexivity | ].
      destruct (IH (log ++ [DateNow; PoolQuery (SelectNewMessages w u);
                            SetTimeout pollInterval])) as (added & ->).
      rewrite <- app_assoc. eexists; reflexivity.
    + destruct (IH (log ++ [DateNow; PoolQuery (SelectNewMessages w u)]))
        as (added & ->).
      rewrite <- app_assoc. eexists; reflexivity.
Qed.

Lemma waitForResponse_unfold fuel w u n log :
  waitForResponse pool clock fuel w u n log
  = waitLoop pool clock fuel w u n (clock (readings_in log)) (log ++ [DateNow]).
Proof. unfold waitForResponse, Date_now. run. reflexivity. Qed.

Lemma waitForResponse_never_throws fuel w u n log error :
  fst (waitForResponse pool clock fuel w u n log) <> Thrown error.
Proof. rewrite waitForResponse_unfold. apply waitLoop_never_throws. Qed.

(** The count that succeeds is the number of rows the loop's query
    returns. *)
Lemma getMessageCount_succeeded db workflowId userId log :
  pool (queries_in log) = Some db ->
  getMessageCount pool workflowId userId log
  = (Value (List.length (select_messages db workflowId userId)),
     log ++ [PoolQuery (SelectCount workflowId userId)]).
Proof.
  intros Hdb. unfold getMessageCount, pool_query. run. rewrite Hdb. run.
  cbn [run_query]. unfold select_messages.
  now rewrite <- (Permutation_length (order_by_message_order_perm _)).
Qed.

(** X6: a logged-in request whose body cannot be read gets 500 from the
    submit and the send-and-wait route, and one whose message or sessionId
    is missing or empty gets 400; in both cases the route has looked up the
    user and read the body and done nothing else: no chatbot, no query, no
    wait. *)
Theorem unusable_body_starts_nothing
        (request : NextRequest) (user : User) (fuel : nat) :
  logged_in verifyToken getUserById request user ->
  (forall reason,
      json request = Throws reason ->
      Send.POST verifyToken getUserById spawn cwd request []
      = (Value (NextResponse_json (error_body "Internal server error") 500),
         [GetUserById (id user); RequestJson])
      /\ POST verifyToken getUserById spawn cwd pool clock fuel request []
         = (Value (NextResponse_json (error_body "Internal server error") 500),
            [GetUserById (id user); RequestJson]))
  /\ (forall body,
         json request = Returns body ->
         truthy (message body) = false \/ truthy (sessionId body) = false ->
         Send.POST verifyToken getUserById spawn cwd request []
         = (Value (NextResponse_json
                     (error_body "Message and sessionId are required") 400),
            [GetUserById (id user); RequestJson])
         /\ POST verifyToken getUserById spawn cwd pool clock fuel request []
            = (Value (NextResponse_json
                        (error_body "Message and sessionId are required") 400),
               [GetUserById (id user); RequestJson])).
Proof.
  intros Hin. split.
  - intros reason Hjson. unfold Send.POST, POST. run.
    rewrite !(authenticated_logged_in verifyToken getUserById request user _ [] Hin).
    run. rewrite Hjson. split; reflexivity.
  - intros body Hjson Hmiss. unfold Send.POST, POST. run.
    rewrite !(authenticated_logged_in verifyToken getUserById request user _ [] Hin).
    run. rewrite Hjson. run.
    assert (G : negb (truthy (message body)) || negb (truthy (sessionId body)) = true).
    { destruct Hmiss as [ -> | -> ]; [ reflexivity | apply orb_true_r ]. }
    unfold negb, orb in G. rewrite G. split; reflexivity.
Qed.

(** What the loop returns is the timeout text or the message of a stored
    'response' row beyond the baseline. *)
Lemma waitLoop_value fuel w u n start log reply :
  fst (waitLoop pool clock fuel w u n start log) = Value reply ->
  reply = timeout_reply
  \/ exists q db r,
      pool q = Some db /\ In r (skipn n (select_messages db w u))
      /\ is_response r = true /\ Conversations.message r = reply.
Proof.
  revert log. induction fuel as [ | fuel IH ]; intros log.
  - simpl. discriminate.
  - rewrite waitLoop_S.
    destruct (_ <? _); [ | simpl; intros E; injection E as <-; now left ].
    destruct (pool (queries_in log)) as [ db | ] eqn:Hdb; [ | apply IH ].
    destruct (new_reply n (select_messages db w u)) as [ m | ] eqn:Hm;
      [ | apply IH ].
    simpl. intros E. injection E as <-. right.
    unfold new_reply in Hm.
    destruct (find is_response (skipn n (select_messages db w u))) as [ r | ] eqn:F;
      [ | discriminate ].
    simpl in Hm. injection Hm as <-.
    apply find_some in F. destruct F as [Hin Hr].
    exists (queries_in log), db, r. auto.
Qed.

(** X7: when the child process does not exit with code 0 or cannot be
    started, the send-and-wait route answers 500 at once: it has looked up
    the user, read the body, counted the messages and started the child, and
    it reads no clock and polls nothing. *)
Theorem failed_child_ends_without_waiting
        (request : NextRequest) (user : User) (body : ChatBody) (fuel : nat) :
  logged_in verifyToken getUserById request user ->
  json request = Returns body ->
  truthy (message body) = true -> truthy (sessionId body) = true ->
  let args :=
    [ path_join [cwd; ".."; "chatbot_backend"; "send_message.py"];
      field (sessionId body); field (message body); toString (id user) ] in
  (exists code stdout stderr,
      spawn "python" args = close code stdout stderr /\ exited_zero code = false)
  \/ (exists error, spawn "python" args = child_error error) ->
  POST verifyToken getUserById spawn cwd pool clock fuel request []
  = (Value (NextResponse_json (error_body "Internal server error") 500),
     [ GetUserById (id user); RequestJson;
       PoolQuery (SelectCount (field (sessionId body)) (id user));
       Spawn "python" args ]).
Proof.
  intros Hin Hjson Hm Hs args Hchild. unfold POST. run.
  rewrite (authenticated_logged_in verifyToken getUserById request user _ [] Hin).
  run. rewrite Hjson. run. rewrite Hm, Hs. run.
  assert (C : exists n,
             getMessageCount pool (field (sessionId body)) (id user)
                             [GetUserById (id user); RequestJson]
             = (Value n, [GetUserById (id user); RequestJson;
                          PoolQuery (SelectCount (field (sessionId body)) (id user))])).
  { destruct (pool 0%nat) as [ db | ] eqn:Hdb.
    - eexists. apply getMessageCount_succeeded. exact Hdb.
    - eexists. apply getMessageCount_failed. exact Hdb. }
  destruct C as (n & ->).
  unfold callPythonChatbot. run. fold args.
  destruct Hchild as [ (code & stdout & stderr & -> & ->) | (error & ->) ];
    reflexivity.
Qed.

(** The loop ends by the first turn whose test finds the clock past the
    window. *)
Lemma waitLoop_ends k fuel w u n start log :
  maxWaitTime <= clock (readings_in log + k) - start ->
  (k < fuel)%nat ->
  fst (waitLoop pool clock fuel w u n start log) <> Pending.
Proof.
  revert fuel log. induction k as [ | k IH ]; intros fuel log Hout Hk;
    (destruct fuel as [ | fuel ]; [ lia | ]); rewrite waitLoop_S;
    destruct (Z.ltb_spec (clock (readings_in log) - start) maxWaitTime)
      as [ Hin | _ ]; try (simpl; discriminate).
  - rewrite Nat.add_0_r in Hout. lia.
  - assert (Hnext : forall log2,
               readings_in log2 = S (readings_in log) ->
               fst (waitLoop pool clock fuel w u n start log2) <> Pending).
    { intros log2 Hr. apply IH; [ | lia ].
      rewrite Hr. now replace (S (readings_in log) + k)%nat
                        with (readings_in log + S k)%nat by lia. }
    destruct (pool (queries_in log)) as [ db | ].
    + destruct (new_reply n (select_messages db w u)); [ simpl; discriminate | ].
      apply Hnext. rewrite readings_in_app. cbn. lia.
    + apply Hnext. rewrite readings_in_app. cbn. lia.
Qed.

(** X8: once the child process has exited with code 0, the send-and-wait
    route answers 200 whatever the store does: when the clock reads 75 s or
    more past the start time at some turn [k] of the wait loop, the route
    has answered by that turn, a failing count or poll never becomes an
    error response, and the reply is the timeout text or the message of a
    stored 'response' row of this workflow and user. *)
Theorem started_chat_answers_200
        (request : NextRequest) (user : User) (body : ChatBody)
        (stdout stderr : string) (k fuel : nat) :
  logged_in verifyToken getUserById request user ->
  json request = Returns body ->
  truthy (message body) = true -> truthy (sessionId body) = true ->
  spawn "python"
        [ path_join [cwd; ".."; "chatbot_backend"; "send_message.py"];
          field (sessionId body); field (message body); toString (id user) ]
  = close (Some 0) stdout stderr ->
  maxWaitTime <= clock (S k) - clock 0%nat ->
  (k < fuel)%nat ->
  exists reply,
    fst (POST verifyToken getUserById spawn cwd pool clock fuel request [])
    = Value (NextResponse_json (response_body reply) 200)
    /\ (reply = timeout_reply
        \/ exists q db r,
            pool q = Some db
            /\ In r (select_messages db (field (sessionId body)) (id user))
            /\ Conversations.speaker r = "response"
            /\ Conversations.message r = reply).
Proof.
  intros Hin Hjson Hm Hs Hsp Hout Hk. unfold POST. run.
  rewrite (authenticated_logged_in verifyToken getUserById request user _ [] Hin).
  run. rewrite Hjson. run. rewrite Hm, Hs. run.
  assert (C : exists n,
             getMessageCount pool (field (sessionId body)) (id user)
                             [GetUserById (id user); RequestJson]
             = (Value n, [GetUserById (id user); RequestJson;
                          PoolQuery (SelectCount (field (sessionId body)) (id user))])).
  { destruct (pool 0%nat) as [ db | ] eqn:Hdb.
    - eexists. apply getMessageCount_succeeded. exact Hdb.
    - eexists. apply getMessageCount_failed. exact Hdb. }
  destruct C as (n & ->).
  unfold callPythonChatbot. run. rewrite Hsp. cbn [exited_zero Z.eqb]. run.
  rewrite waitForResponse_unfold.
  match goal with
  | |- context [waitLoop pool clock fuel ?w ?u ?c ?s ?l] =>
      pose proof (waitLoop_never_throws pool clock fuel w u c s l) as NT;
      pose proof (waitLoop_value fuel w u c s l) as V;
      pose proof (waitLoop_ends k fuel w u c s l) as T;
      destruct (waitLoop pool clock fuel w u c s l) as [[ reply | e | ] log']
  end; simpl in *.
  - exists reply. split; [ reflexivity | ].
    destruct (V reply eq_refl) as [ -> | (q & db & r & Hq & Hr & Hresp & Hmsg) ];
      [ now left | right ].
    exists q, db, r. repeat split; try assumption.
    + rewrite <- (firstn_skipn n). apply in_or_app. now right.
    + now apply String.eqb_eq.
  - exfalso. now apply (NT e).
  - exfalso. now apply T.
Qed.

(** X9: the count taken before the chatbot is started is the baseline of
    the wait.  When the count query, the child process and the first poll
    inside the window succeed, and the poll returns the rows counted
    followed by new ones, the route answers with the first 'response' row
    among the new ones, whatever replies the rows counted hold. *)
Theorem baseline_skips_counted_rows
        (request : NextRequest) (user : User) (body : ChatBody)
        (db0 db1 : Database)
        (added : list Conversations.ConversationMessage)
        (r : Conversations.ConversationMessage)
        (stdout stderr : string) (fuel : nat) :
  logged_in verifyToken getUserById request user ->
  json request = Returns body ->
  truthy (message body) = true -> truthy (sessionId body) = true ->
  pool 0%nat = Some db0 ->
  spawn "python"
        [ path_join [cwd; ".."; "chatbot_backend"; "send_message.py"];
          field (sessionId body); field (message body); toString (id user) ]
  = close (Some 0) stdout stderr ->
  clock 1%nat - clock 0%nat < maxWaitTime ->
  pool 1%nat = Some db1 ->
  select_messages db1 (field (sessionId body)) (id user)
  = select_messages db0 (field (sessionId body)) (id user) ++ added ->
  find is_response added = Some r ->
  fst (POST verifyToken getUserById spawn cwd pool clock (S fuel) request [])
  = Value (NextResponse_json (response_body (Conversations.message r)) 200).
Proof.
  intros Hin Hjson Hm Hs Hcount Hsp Hwin Hpoll Hrows Hfind.
  unfold POST. run.
  rewrite (authenticated_logged_in verifyToken getUserById request user _ [] Hin).
  run. rewrite Hjson. run. rewrite Hm, Hs. run.
  rewrite (getMessageCount_succeeded db0) by exact Hcount.
  unfold callPythonChatbot. run. rewrite Hsp. cbn [exited_zero Z.eqb]. run.
  rewrite waitForResponse_unfold, waitLoop_S.
  cbn [readings_in queries_in filter is_date_now is_query List.length app].
  apply Z.ltb_lt in Hwin. rewrite Hwin, Hpoll.
  unfold new_reply. rewrite Hrows, skipn_app, skipn_all, Nat.sub_diag.
  cbn [skipn app]. rewrite Hfind. reflexivity.
Qed.

(** The delay awaited before a reading of the clock has passed at that
    reading. *)
Lemma timers_honoured_reading r slept rest :
  timers_honoured clock (S r) slept (DateNow :: rest) = true ->
  slept <= clock (S r) - clock r
  /\ timers_honoured clock (S (S r)) 0 rest = true.
Proof.
  cbn [timers_honoured]. intros H. apply andb_prop in H. destruct H as [H1 H2].
  apply Z.leb_le in H1. auto.
Qed.

(** The test on a log that ends in a reading goes on after it without a
    delay awaited. *)
Lemma timers_honoured_from k slept log added :
  timers_honoured clock k slept (log ++ DateNow :: added) = true ->
  timers_honoured clock (S (k + readings_in log)) 0 added = true.
Proof.
  revert k slept. induction log as [ | e log IH ]; intros k slept H.
  - cbn [app timers_honoured] in H. apply andb_prop in H.
    unfold readings_in. cbn. rewrite Nat.add_0_r. apply H.
  - destruct e; cbn [app timers_honoured] in H;
      try (apply IH in H; exact H).
    apply andb_prop in H. destruct H as [_ H]. apply IH in H.
    unfold readings_in in *. cbn [filter is_date_now List.length].
    now rewrite Nat.add_succ_r.
Qed.

(** A loop whose polls return, under a clock that honours the timers the
    loop awaits, ends within the turns the window has room for. *)
Lemma waitLoop_bounded fuel w u n start log r slept :
  (forall i, exists db, pool (queries_in log + i) = Some db) ->
  readings_in log = S r ->
  (exists added,
      snd (waitLoop pool clock fuel w u n start log) = log ++ added
      /\ timers_honoured clock (S r) slept added = true) ->
  (1 <= fuel)%nat ->
  maxWaitTime - (clock r + slept - start) <= pollInterval * (Z.of_nat fuel - 1) ->
  exists reply log',
    waitLoop pool clock fuel w u n start log = (Value reply, log')
    /\ (queries_in log' <= queries_in log + (fuel - 1))%nat.
Proof.
  revert log r slept.
  induction fuel as [ | fuel IH ]; intros log r slept Hpool Hr Hhon Hfuel Hleft;
    [ lia | ].
  destruct Hhon as (added & Hadded & Hhon).
  rewrite waitLoop_S in Hadded |- *. rewrite Hr in *.
  destruct (Z.ltb_spec (clock (S r) - start) maxWaitTime) as [ Hin | Hout ].
  - destruct (Hpool 0%nat) as (db & Hdb). rewrite Nat.add_0_r in Hdb.
    rewrite Hdb in Hadded |- *.
    destruct (new_reply n (select_messages db w u)) as [ reply | ].
    + cbn [snd] in Hadded. apply app_inv_head in Hadded. subst added.
      apply timers_honoured_reading in Hhon. destruct Hhon as [Hslept _].
      eexists _, _. split; [ reflexivity | ].
      rewrite queries_in_app. cbn. unfold pollInterval in *. lia.
    + set (log2 := log ++ [DateNow; PoolQuery (SelectNewMessages w u);
                           SetTimeout pollInterval]) in *.
      destruct (waitLoop_extends fuel w u n start log2) as (added2 & Hadded2).
      rewrite Hadded2 in Hadded. unfold log2 in Hadded.
      rewrite <- app_assoc in Hadded. apply app_inv_head in Hadded. subst added.
      cbn [app] in Hhon.
      apply timers_honoured_reading in Hhon. destruct Hhon as [Hslept Hhon].
      cbn [timers_honoured] in Hhon.
      assert (Hr2 : readings_in log2 = S (S r)).
      { unfold log2. rewrite readings_in_app, Hr. cbn. lia. }
      assert (Hq2 : queries_in log2 = S (queries_in log)).
      { unfold log2. rewrite queries_in_app. cbn. lia. }
      destruct (IH log2 (S r) (0 + pollInterval)) as (reply & log' & E & Hle).
      * intros i. rewrite Hq2.
        replace (S (queries_in log) + i)%nat with (queries_in log + S i)%nat by lia.
        apply Hpool.
      * exact Hr2.
      * exists added2. split; [ exact Hadded2 | exact Hhon ].
      * unfold pollInterval in *. lia.
      * unfold pollInterval in *. lia.
      * exists reply, log'. split; [ exact E | ]. rewrite Hq2 in Hle.
        unfold pollInterval in *. lia.
  - eexists _, _. split; [ reflexivity | ].
    rewrite queries_in_app. cbn. lia.
Qed.

(** X10: the wait is bounded.  If every poll returns, and the clock honours
    the timers the wait awaits (from one reading of the clock to the next
    time does not run backwards, and an awaited timer takes at least its
    delay), [waitForResponse] returns within 76 turns of its loop and sends
    at most 75 queries to the store.  A poll that throws awaits no timer,
    so nothing bounds the queries of a wait whose polls throw. *)
Theorem wait_sends_at_most_75_queries
        (workflowId : string) (userId : Z) (initialCount : nat)
        (log : list Effect) :
  (forall i, exists db, pool (queries_in log + i) = Some db) ->
  timers_honoured clock 0 0
    (snd (waitForResponse pool clock 76 workflowId userId initialCount log))
  = true ->
  exists reply log',
    waitForResponse pool clock 76 workflowId userId initialCount log
    = (Value reply, log')
    /\ (queries_in log' <= queries_in log + 75)%nat.
Proof.
  intros Hpool Hhon. rewrite waitForResponse_unfold in Hhon |- *.
  destruct (waitLoop_extends 76 workflowId userId initialCount
              (clock (readings_in log)) (log ++ [DateNow])) as (added & Hadded).
  rewrite Hadded, <- app_assoc in Hhon. cbn [app] in Hhon.
  apply timers_honoured_from in Hhon. cbn [Nat.add] in Hhon.
  destruct (waitLoop_bounded 76 workflowId userId initialCount
              (clock (readings_in log)) (log ++ [DateNow]) (readings_in log) 0)
    as (reply & log' & E & Hle).
  - intros i. rewrite queries_in_app. cbn. rewrite Nat.add_0_r. apply Hpool.
  - rewrite readings_in_app. cbn. lia.
  - exists added. split; [ exact Hadded | exact Hhon ].
  - lia.
  - unfold maxWaitTime, pollInterval. lia.
  - exists reply, log'. split; [ exact E | ].
    rewrite queries_in_app in Hle. cbn in Hle. lia.
Qed.

Lemma string_length_append (a b : string) :
  String.length (a ++ b)%string = (String.length a + String.length b)%nat.
Proof. induction a as [ | c a IH ]; simpl; [ reflexivity | now rewrite IH ]. Qed.

(** X11: the two chat routes name the conversation differently.  For the
    same logged-in request, the submit route starts the chatbot with the
    workflow id sessionId-user-id and the send-and-wait route starts it with
    the sessionId itself, whatever the child and the store do, and the two
    ids are never equal. *)
Theorem routes_start_different_workflows
        (request : NextRequest) (user : User) (body : ChatBody) (fuel : nat) :
  logged_in verifyToken getUserById request user ->
  json request = Returns body ->
  truthy (message body) = true -> truthy (sessionId body) = true ->
  let suffixed :=
    (field (sessionId body) ++ "-user-" ++ toString (id user))%string in
  In (Spawn "python"
            [ path_join [cwd; ".."; "bedrock"; "session"; "send_message.py"];
              suffixed; field (message body) ])
     (snd (Send.POST verifyToken getUserById spawn cwd request []))
  /\ In (Spawn "python"
               [ path_join [cwd; ".."; "chatbot_backend"; "send_message.py"];
                 field (sessionId body); field (message body);
                 toString (id user) ])
        (snd (POST verifyToken getUserById spawn cwd pool clock fuel request []))
  /\ suffixed <> field (sessionId body).
Proof.
  intros Hin Hjson Hm Hs suffixed. split; [ | split ].
  - unfold Send.POST, Send.callPythonChatbot. run.
    rewrite (authenticated_logged_in verifyToken getUserById request user _ [] Hin).
    run. rewrite Hjson. run. rewrite Hm, Hs. run. fold suffixed.
    repeat (next_case; run); simpl; tauto.
  - unfold POST. run.
    rewrite (authenticated_logged_in verifyToken getUserById request user _ [] Hin).
    run. rewrite Hjson. run. rewrite Hm, Hs. run.
    assert (C : exists n,
               getMessageCount pool (field (sessionId body)) (id user)
                               [GetUserById (id user); RequestJson]
               = (Value n, [GetUserById (id user); RequestJson;
                            PoolQuery (SelectCount (field (sessionId body)) (id user))])).
    { destruct (pool 0%nat) as [ db | ] eqn:Hdb.
      - eexists. apply getMessageCount_succeeded. exact Hdb.
      - eexists. apply getMessageCount_failed. exact Hdb. }
    destruct C as (n & ->).
    unfold callPythonChatbot. run.
    next_case; run; [ next_case; run | simpl; tauto ]; [ | simpl; tauto ].
    rewrite waitForResponse_unfold.
    match goal with
    | |- context [waitLoop pool clock fuel ?w ?u ?k ?s ?l] =>
        destruct (waitLoop_extends fuel w u k s l) as (added & E);
        destruct (waitLoop pool clock fuel w u k s l) as [[ reply | e | ] log']
    end; simpl in E; subst log'; simpl; tauto.
  - intros E. apply (f_equal String.length) in E.
    unfold suffixed in E. rewrite !string_length_append in E. simpl in E. lia.
Qed.

End SendAndWaitFacts.

(* ===================================================================== *)
(** * Further properties of the history route                              *)
(* ===================================================================== *)

Section HistoryFacts.
Import Web Auth.

Variable verifyToken : string -> Ext (option Decoded).
Variable getUserById : Z -> Ext (option User).
Variable pool : nat -> option Database.

Lemma is_user_spec u userId : is_user u userId = true <-> u = Some userId.
Proof.
  destruct u as [ z | ]; simpl.
  - rewrite Z.eqb_eq. split; congruence.
  - split; discriminate.
Qed.

Lemma select_messages_In db w u m :
  In m (select_messages db w u) ->
  In m (Conversations.rows (conversations db))
  /\ Conversations.workflow_id m = w /\ Conversations.user_id m = Some u.
Proof.
  unfold select_messages. intros H.
  apply (Permutation_in _ (Permutation_sym (order_by_message_order_perm _))) in H.
  apply filter_In in H. destruct H as [Hin Hw].
  unfold where_conversation in Hw. apply andb_true_iff in Hw.
  destruct Hw as [Hw Hu]. apply String.eqb_eq in Hw. apply is_user_spec in Hu.
  auto.
Qed.

(** X12: the history route always answers, with status 200, 401, 404 or
    500; it sends at most two queries and starts no process; and for a
    logged-in request the status is 200 whatever the store does. *)
Theorem history_always_answers (request : NextRequest) :
  (exists response log,
      History.GET verifyToken getUserById pool request [] = (Value response, log)
      /\ In (status response) [200; 401; 404; 500]
      /\ (queries_in log <= 2)%nat
      /\ Forall (fun e => is_spawn e = false) log)
  /\ (forall user,
         logged_in verifyToken getUserById request user ->
         exists response log,
           History.GET verifyToken getUserById pool request [] = (Value response, log)
           /\ status response = 200).
Proof.
  split.
  - unfold History.GET, authenticated, History.getConversation,
      History.getAllConversations, History.pool_query.
    run. repeat (next_case; run);
      eexists _, _; (split; [ reflexivity | ]);
      (split; [ simpl; tauto | ]);
      (split; [ unfold queries_in; simpl; lia | repeat constructor ]).
  - intros user Hin. unfold History.GET. run.
    rewrite (authenticated_logged_in verifyToken getUserById request user _ [] Hin).
    unfold History.getConversation, History.getAllConversations, History.pool_query.
    run. repeat (next_case; run); eexists _, _; split; reflexivity.
Qed.

(** X13: the history route shows a user only that user's rows.  Every turn
    in the conversation it returns for a logged-in request is stored with
    the workflow id asked for and the user id of the request, and so is the
    summary it returns. *)
Theorem history_returns_own_rows_only
        (request : NextRequest) (user : User)
        (response : NextResponse) (log : list Effect) (c : Conversation) :
  logged_in verifyToken getUserById request user ->
  History.GET verifyToken getUserById pool request [] = (Value response, log) ->
  body response = conversation_body (Some c) ->
  workflow_id c = field (searchParams_workflowId request)
  /\ (forall m, In m (messages c) ->
                Conversations.workflow_id m = workflow_id c
                /\ Conversations.user_id m = Some (id user))
  /\ (forall s, summary c = Some s ->
                Summaries.workflow_id s = workflow_id c
                /\ Summaries.user_id s = Some (id user)).
Proof.
  intros Hin. unfold History.GET. run.
  rewrite (authenticated_logged_in verifyToken getUserById request user _ [] Hin).
  unfold History.getConversation, History.getAllConversations, History.pool_query.
  run. repeat (next_case; run);
    intros E; injection E as <- _; simpl; intros B; try discriminate B;
    injection B as <-; simpl.
  split; [ reflexivity | split ].
  - intros m Hm. apply select_messages_In in Hm. tauto.
  - intros s Hs.
    match type of Hs with
    | hd_error ?l = Some _ => assert (Hl : In s l) by (destruct l; simpl in Hs;
                                                        [ discriminate | injection Hs as ->; now left ])
    end.
    apply filter_In in Hl. destruct Hl as [_ Hl].
    apply andb_true_iff in Hl. destruct Hl as [Hu Hw].
    apply is_user_spec in Hu. apply String.eqb_eq in Hw. auto.
Qed.


Lemma updated_not_before_trans a b c :
  updated_not_before a b = true -> updated_not_before b c = true ->
  updated_not_before a c = true.
Proof.
  unfold updated_not_before.
  destruct (l_updated_at a), (l_updated_at b), (l_updated_at c);
    try reflexivity; try discriminate.
  rewrite !Z.leb_le. lia.
Qed.

Lemma updated_not_before_total a b :
  updated_not_before a b = false -> updated_not_before b a = true.
Proof.
  unfold updated_not_before.
  destruct (l_updated_at a), (l_updated_at b); try reflexivity; try discriminate.
  rewrite Z.leb_gt, Z.leb_le. lia.
Qed.

Lemma insert_by_updated_perm r l : Permutation (r :: l) (insert_by_updated r l).
Proof.
  induction l as [ | x l IH ]; simpl.
  - apply Permutation_refl.
  - destruct (updated_not_before r x).
    + apply Permutation_refl.
    + eapply perm_trans; [ apply perm_swap | ]. now apply perm_skip.
Qed.

Lemma order_by_updated_perm l : Permutation l (fold_right insert_by_updated [] l).
Proof.
  induction l as [ | r l IH ]; simpl.
  - apply perm_nil.
  - eapply perm_trans; [ apply perm_skip, IH | apply insert_by_updated_perm ].
Qed.

Lemma insert_by_updated_sorted r l :
  StronglySorted (fun a b => updated_not_before a b = true) l ->
  StronglySorted (fun a b => updated_not_before a b = true) (insert_by_updated r l).
Proof.
  induction 1 as [ | x l Hl IH Hx ]; simpl.
  - constructor; constructor.
  - destruct (updated_not_before r x) eqn:E.
    + constructor; [ now constructor | ].
      constructor; [ assumption | ].
      eapply Forall_impl; [ | exact Hx ]. simpl.
      intros a Ha. eapply updated_not_before_trans; eassumption.
    + constructor; [ assumption | ].
      eapply Permutation_Forall; [ apply insert_by_updated_perm | ].
      constructor; [ now apply updated_not_before_total | assumption ].
Qed.

Lemma order_by_updated_sorted l :
  StronglySorted (fun a b => updated_not_before a b = true)
                 (fold_right insert_by_updated [] l).
Proof.
  induction l as [ | r l IH ]; simpl.
  - constructor.
  - now apply insert_by_updated_sorted.
Qed.

(** X15: the listing of the history route.  For a logged-in request without
    a workflowId (or with an empty one) whose query succeeds, the route
    answers 200 with one entry for every summary row stored for the user and
    no other entry, without repetition, each with the number of the user's
    turns under that workflow id, ordered from the latest update to the
    earliest with the rows never updated first. *)
Theorem listing_is_own_summaries_latest_first
        (request : NextRequest) (user : User) (db : Database) :
  logged_in verifyToken getUserById request user ->
  truthy (searchParams_workflowId request) = false ->
  pool 0%nat = Some db ->
  exists entries,
    History.GET verifyToken getUserById pool request []
    = (Value (NextResponse_json (conversations_body entries) 200),
       [GetUserById (id user); PoolQuery (SelectListing (id user))])
    /\ StronglySorted (fun a b => updated_not_before a b = true) entries
    /\ NoDup entries
    /\ (forall entry,
           In entry entries <->
           exists cs,
             In cs (Summaries.rows (conversation_summaries db))
             /\ Summaries.user_id cs = Some (id user)
             /\ entry
                = {| l_workflow_id := Summaries.workflow_id cs;
                     l_summary := Summaries.summary cs;
                     l_created_at := Summaries.created_at cs;
                     l_updated_at := Summaries.updated_at cs;
                     message_count :=
                       List.length
                         (filter (where_conversation (Summaries.workflow_id cs)
                                                     (id user))
                                 (Conversations.rows (conversations db))) |}).
Proof.
  intros Hin Hw Hdb. exists (select_listing db (id user)).
  split; [ | split; [ | split ] ].
  - unfold History.GET. run.
    rewrite (authenticated_logged_in verifyToken getUserById request user _ [] Hin).
    rewrite Hw. unfold History.getAllConversations, History.pool_query. run.
    rewrite Hdb. reflexivity.
  - apply order_by_updated_sorted.
  - eapply Permutation_NoDup; [ apply order_by_updated_perm | apply NoDup_nodup ].
  - intros entry. unfold select_listing. split.
    + intros H.
      apply (Permutation_in _ (Permutation_sym (order_by_updated_perm _))) in H.
      apply nodup_In, in_map_iff in H. destruct H as (cs & <- & Hcs).
      apply filter_In in Hcs. destruct Hcs as [Hcs Hu].
      apply is_user_spec in Hu. exists cs. auto.
    + intros (cs & Hcs & Hu & ->).
      apply (Permutation_in _ (order_by_updated_perm _)).
      apply nodup_In, in_map_iff. exists cs. split; [ reflexivity | ].
      apply filter_In. split; [ assumption | now apply is_user_spec ].
Qed.

End HistoryFacts.

(* ===================================================================== *)
(** * Properties of the chat component                                     *)
(* ===================================================================== *)

Section ChatFacts.
Import Fetch ChatInterfaceSimple.

Variable trim : string -> string.
Variable clock : nat -> Z.
Variable random : nat -> string.
Variable auth_user : option Web.User.


(** X17: the bot bubble that [sendMessage] adds shows the text of the
    response exactly when the response is ok and its JSON parses; after a
    rejected fetch, a status outside 200-299 or unreadable JSON it shows the
    fixed apology. *)
Theorem sendMessage_reply_text
        (fetched : Fetched SendData) (st : State) :
  trim (inputMessage st) <> "" -> loading st = false ->
  map content (skipn (S (List.length (messages st)))
                     (messages (final (sendMessage trim clock fetched st))))
  = [ match fetched with
      | responds status (Web.Returns data) =>
          if (200 <=? status) && (status <=? 299) then response data else apology
      | _ => apology
      end ].
Proof.
  intros Hinput Hloading. unfold sendMessage.
  apply String.eqb_neq in Hinput. rewrite Hinput, Hloading.
  cbn [orb final messages]. rewrite <- app_assoc. cbn [app].
  replace (S (List.length (messages st)))
    with (List.length (messages st) + 1)%nat by lia.
  rewrite skipn_app, skipn_all2 by lia.
  replace (List.length (messages st) + 1 - List.length (messages st))%nat
    with 1%nat by lia.
  cbn [app skipn map]. unfold ok.
  destruct fetched as [ | status [ data | reason ] ];
    try match goal with |- context [if ?b then _ else _] => destruct b end;
    reflexivity.
Qed.

Lemma botMessages_from_content n rows :
  map content (botMessages_from clock random n rows)
  = map Conversations.message rows.
Proof.
  revert n. induction rows as [ | msg rows IH ]; intros n; simpl;
    [ reflexivity | now rewrite IH ].
Qed.

Lemma botMessages_from_sender n rows :
  Forall (fun m => sender m = bot) (botMessages_from clock random n rows).
Proof.
  revert n. induction rows as [ | msg rows IH ]; intros n; simpl;
    constructor; [ reflexivity | apply IH ].
Qed.

Lemma botMessages_from_length n rows :
  List.length (botMessages_from clock random n rows) = List.length rows.
Proof.
  revert n. induction rows as [ | msg rows IH ]; intros n; simpl;
    [ reflexivity | now rewrite IH ].
Qed.

(** X18: one run of [checkHistory] only adds bot bubbles: whatever the
    fetch does, the messages shown before stay, every bubble added is from
    the bot, and the input, the loading flag and the session id are as they
    were.  After an ok response the bubbles added are the messages of the
    rows of speaker 'response', in the order received; rows of other
    speakers add nothing. *)
Theorem checkHistory_adds_replies_only
        (fetched : Fetched CheckData) (st : State) :
  let run := checkHistory clock random auth_user fetched st in
  (exists added,
      messages (final run) = messages st ++ added
      /\ Forall (fun m => sender m = bot) added
      /\ inputMessage (final run) = inputMessage st
      /\ loading (final run) = loading st
      /\ sessionId (final run) = sessionId st
      /\ during run = st)
  /\ (forall status rows,
         sessionId st <> "" ->
         fetched = responds status (Web.Returns {| newMessages := Some rows |}) ->
         ok status = true ->
         map content (skipn (List.length (messages st)) (messages (final run)))
         = map Conversations.message (filter SendAndWait.is_response rows)).
Proof.
  cbv zeta. split.
  - assert (Same : forall s : State,
               s = st ->
               exists added,
                 messages s = messages st ++ added
                 /\ Forall (fun m => sender m = bot) added
                 /\ inputMessage s = inputMessage st
                 /\ loading s = loading st
                 /\ sessionId s = sessionId st
                 /\ st = st).
    { intros s ->. exists []. rewrite app_nil_r. repeat split. constructor. }
    unfold checkHistory.
    destruct (String.eqb (sessionId st) ""); [ now apply Same | ].
    cbn [final during].
    destruct fetched as [ | status [ data | reason ] ];
      [ now apply Same | | now apply Same ].
    destruct (ok status); [ | now apply Same ].
    destruct (newMessages data) as [ rows | ]; [ | now apply Same ].
    destruct (Nat.ltb 0 (List.length rows)); [ | now apply Same ].
    destruct (Nat.ltb 0 _); [ | now apply Same ].
    eexists. split; [ reflexivity | ].
    split; [ apply botMessages_from_sender | repeat split ].
  - intros status rows Hsession -> Hok. unfold checkHistory.
    apply String.eqb_neq in Hsession. rewrite Hsession, Hok.
    cbn [final newMessages].
    destruct rows as [ | row rows ]; [ simpl; now rewrite skipn_all | ].
    cbn [List.length Nat.ltb Nat.leb].
    destruct (filter SendAndWait.is_response (row :: rows)) as [ | x xs ] eqn:F.
    + simpl. now rewrite skipn_all.
    + cbn [botMessages_from List.length Nat.ltb Nat.leb messages].
      rewrite skipn_app, skipn_all, Nat.sub_diag. cbn [app skipn].
      change (map content (botMessages_from clock random 0 (x :: xs))
              = map Conversations.message (x :: xs)).
      apply botMessages_from_content.
Qed.

End ChatFacts.

(* ===================================================================== *)
(** * The components against the routes                                    *)
(* ===================================================================== *)

Section ComponentsAndRoutes.
Import Web Auth Fetch.

Variable verifyToken : string -> Ext (option Decoded).
Variable getUserById : Z -> Ext (option User).
Variable spawn : string -> list string -> ChildOutcome.
Variable cwd : string.
Variable pool : nat -> option Database.
Variable clock : nat -> Z.
Variable random : nat -> string.

Lemma logged_in_by_cookie request request' user :
  cookies_token request' = cookies_token request ->
  logged_in verifyToken getUserById request user ->
  logged_in verifyToken getUserById request' user.
Proof.
  intros Hc (token & decoded & H1 & H2). exists token, decoded.
  rewrite Hc. auto.
Qed.

Lemma rejected_by_cookie request request' :
  cookies_token request' = cookies_token request ->
  rejected verifyToken getUserById request ->
  rejected verifyToken getUserById request'.
Proof. unfold rejected. now intros ->. Qed.

(** X19: Check Response asks for the conversation the submit route started.
    For a user logged in on both sides and the session id of the component
    in the body of the request, the workflow id that [checkHistory] sends is
    the one the submit route passes to the chatbot. *)
Theorem checkHistory_names_submitted_workflow
        (request : NextRequest) (user : User) (body : ChatBody)
        (st : ChatInterfaceSimple.State)
        (fetched : Fetched ChatInterfaceSimple.CheckData) :
  logged_in verifyToken getUserById request user ->
  json request = Returns body ->
  truthy (message body) = true -> truthy (sessionId body) = true ->
  ChatInterfaceSimple.sessionId st = field (sessionId body) ->
  exists workflowId,
    ChatInterfaceSimple.sent
      (ChatInterfaceSimple.checkHistory clock random (Some user) fetched st)
    = [ {| url := "/api/chat/check-response";
           body := [("workflowId", workflowId)] |} ]
    /\ In (Spawn "python"
                 [ path_join [cwd; ".."; "bedrock"; "session"; "send_message.py"];
                   workflowId; field (message body) ])
          (snd (Send.POST verifyToken getUserById spawn cwd request [])).
Proof.
  intros Hin Hjson Hm Hs Hsession.
  exists (field (sessionId body) ++ "-user-" ++ toString (id user))%string.
  split.
  - unfold ChatInterfaceSimple.checkHistory. rewrite Hsession.
    assert (E : String.eqb (field (sessionId body)) "" = false).
    { unfold truthy in Hs. unfold field.
      destruct (sessionId body); [ now apply negb_true_iff | discriminate ]. }
    rewrite E. reflexivity.
  - unfold Send.POST, Send.callPythonChatbot. run.
    rewrite (authenticated_logged_in verifyToken getUserById request user _ [] Hin).
    run. rewrite Hjson. run. rewrite Hm, Hs. run.
    repeat (next_case; run); simpl; tauto.
Qed.

(** X20: what the history viewer shows when the route cannot help.  Served
    by the history route for a logged-in user, a click on a conversation
    whose messages or summary query fails leaves nothing selected, and a
    load of the list whose query fails leaves an empty list; served a
    rejected request (401 or 404), the click keeps the selection as it was.
    In each case the loading flag it raised is lowered. *)
Theorem viewer_after_failed_or_rejected_fetch
        (request : NextRequest) (workflowId : string)
        (st : HistoryViewer.State) :
  (forall user,
      logged_in verifyToken getUserById request user ->
      workflowId <> "" ->
      pool 0%nat = None \/ pool 1%nat = None ->
      HistoryViewer.loadConversationDetail
        (HistoryViewer.fetch_history verifyToken getUserById pool
           (cookies_token request) (Some workflowId)) st
      = {| HistoryViewer.conversations := HistoryViewer.conversations st;
           HistoryViewer.selectedConversation := None;
           HistoryViewer.loading := HistoryViewer.loading st;
           HistoryViewer.detailLoading := false |})
  /\ (forall user,
         logged_in verifyToken getUserById request user ->
         pool 0%nat = None ->
         HistoryViewer.loadConversations
           (HistoryViewer.fetch_history verifyToken getUserById pool
              (cookies_token request) None) st
         = {| HistoryViewer.conversations := Some [];
              HistoryViewer.selectedConversation :=
                HistoryViewer.selectedConversation st;
              HistoryViewer.loading := false;
              HistoryViewer.detailLoading := HistoryViewer.detailLoading st |})
  /\ (rejected verifyToken getUserById request ->
      HistoryViewer.loadConversationDetail
        (HistoryViewer.fetch_history verifyToken getUserById pool
           (cookies_token request) (Some workflowId)) st
      = {| HistoryViewer.conversations := HistoryViewer.conversations st;
           HistoryViewer.selectedConversation :=
             HistoryViewer.selectedConversation st;
           HistoryViewer.loading := HistoryViewer.loading st;
           HistoryViewer.detailLoading := false |}).
Proof.
  split; [ | split ].
  - intros user Hin Hw Hfail.
    unfold HistoryViewer.fetch_history, History.GET. run.
    match goal with
    | |- context [authenticated verifyToken getUserById ?r ?k []] =>
        rewrite (authenticated_logged_in verifyToken getUserById r user k []
                   (logged_in_by_cookie request r user eq_refl Hin))
    end.
    cbn [searchParams_workflowId truthy field].
    apply String.eqb_neq in Hw. rewrite Hw. cbn [negb].
    unfold History.getConversation, History.pool_query. run.
    destruct (pool 0%nat) as [ db | ] eqn:E0.
    + destruct Hfail as [ Hfail | Hfail ]; [ discriminate Hfail | ].
      run. rewrite Hfail. reflexivity.
    + reflexivity.
  - intros user Hin Hfail.
    unfold HistoryViewer.fetch_history, History.GET. run.
    match goal with
    | |- context [authenticated verifyToken getUserById ?r ?k []] =>
        rewrite (authenticated_logged_in verifyToken getUserById r user k []
                   (logged_in_by_cookie request r user eq_refl Hin))
    end.
    cbn [searchParams_workflowId truthy].
    unfold History.getAllConversations, History.pool_query. run.
    rewrite Hfail. reflexivity.
  - intros Hrej.
    unfold HistoryViewer.fetch_history, History.GET. run.
    match goal with
    | |- context [authenticated verifyToken getUserById ?r ?k []] =>
        destruct (authenticated_rejected verifyToken getUserById r k []
                    (rejected_by_cookie request r eq_refl Hrej))
          as (response & log' & E & Hs & _)
    end.
    rewrite E. cbn [fst]. unfold HistoryViewer.loadConversationDetail.
    assert (Hok : ok (status response) = false)
      by (destruct Hs as [ -> | -> ]; reflexivity).
    rewrite Hok. reflexivity.
Qed.

End ComponentsAndRoutes.

(* ===================================================================== *)
(** * The further properties on sample data                                *)
(* ===================================================================== *)

Section FurtherSamples.
Import Web Auth.

(** The sample request for the listing is logged in as user 7. *)
Lemma listing_logged_in :
  logged_in Sample.verifyToken Sample.getUserById Sample.listing_request
            Sample.user7.
Proof.
  exists "good", {| userId := 7 |}.
  repeat split; try reflexivity. discriminate.
Defined.

(** X1 on the table that holds the same sequence number twice. *)
Lemma stored_ids_sample :
  NoDup (map Conversations.id (Conversations.rows Sample.same_order_twice)).
Proof.
  apply (stored_ids_are_distinct Sample.same_order_twice).
  apply Conversations.reach_insert, Conversations.reach_insert,
    Conversations.reach_empty.
Defined.

(** X2 on the table that holds one turn. *)
Lemma stored_rows_sample : Typing.well_typed Sample.hello_row.
Proof.
  apply (stored_rows_are_well_typed Sample.one_turn Sample.hello_row).
  - apply Conversations.reach_insert, Conversations.reach_empty.
  - left. reflexivity.
Defined.

(** X3 on an INSERT without speaker. *)
Lemma insert_without_speaker_sample :
  exists e,
    fst (Conversations.insert Sample.one_turn 5 Scene.turn_without_speaker) = Err e
    /\ Conversations.rows
         (snd (Conversations.insert Sample.one_turn 5 Scene.turn_without_speaker))
       = Conversations.rows Sample.one_turn.
Proof.
  apply (insert_without_required_column_is_rejected
           Sample.one_turn 5 Scene.turn_without_speaker).
  right. right. left. reflexivity.
Defined.


(** X6 on a request whose body cannot be read. *)
Lemma unusable_body_sample :
  Send.POST Sample.verifyToken Sample.getUserById Sample.child_ok "/srv/web-ui"
            Sample.listing_request []
  = (Value (NextResponse_json (error_body "Internal server error") 500),
     [GetUserById 7; RequestJson]).
Proof.
  apply (proj1 (proj1 (unusable_body_starts_nothing
                         Sample.verifyToken Sample.getUserById Sample.child_ok
                         "/srv/web-ui" Sample.pool_up Sample.clock_seconds
                         Sample.listing_request Sample.user7 3 listing_logged_in)
                      "no body" eq_refl)).
Defined.

(** X7 on a child process that exits with code 1. *)
Lemma failed_child_sample :
  SendAndWait.POST Sample.verifyToken Sample.getUserById Sample.child_failed
                   "/srv/web-ui" Sample.pool_up Sample.clock_seconds 3
                   (Sample.chat_request (Some "good")) []
  = (Value (NextResponse_json (error_body "Internal server error") 500),
     [ GetUserById 7; RequestJson; PoolQuery (SelectCount "session-1" 7);
       Spawn "python" [ "/srv/chatbot_backend/send_message.py";
                        "session-1"; "What is new?"; "7" ] ]).
Proof.
  refine (failed_child_ends_without_waiting
            Sample.verifyToken Sample.getUserById Sample.child_failed
            "/srv/web-ui" Sample.pool_up Sample.clock_seconds
            (Sample.chat_request (Some "good")) Sample.user7
            {| message := Some "What is new?"; sessionId := Some "session-1" |} 3
            sample_logged_in eq_refl eq_refl eq_refl _).
  left. exists (Some 1), "", "Traceback". split; reflexivity.
Defined.

(** X8 on a store that is down for the whole wait, with one second between
    two readings of the clock: the route answers 200 with the timeout text
    at the turn that reads 75 s. *)
Lemma started_chat_sample :
  (exists reply,
      fst (SendAndWait.POST Sample.verifyToken Sample.getUserById Sample.child_ok
             "/srv/web-ui" Sample.pool_down Sample.clock_seconds 75
             (Sample.chat_request (Some "good")) [])
      = Value (NextResponse_json (response_body reply) 200)
      /\ (reply = SendAndWait.timeout_reply
          \/ exists q db r,
              Sample.pool_down q = Some db
              /\ In r (select_messages db "session-1" 7)
              /\ Conversations.speaker r = "response"
              /\ Conversations.message r = reply))
  /\ fst (SendAndWait.POST Sample.verifyToken Sample.getUserById Sample.child_ok
            "/srv/web-ui" Sample.pool_down Sample.clock_seconds 75
            (Sample.chat_request (Some "good")) [])
     = Value (NextResponse_json (response_body SendAndWait.timeout_reply) 200).
Proof.
  split.
  - apply (started_chat_answers_200
             Sample.verifyToken Sample.getUserById Sample.child_ok
             "/srv/web-ui" Sample.pool_down Sample.clock_seconds
             (Sample.chat_request (Some "good")) Sample.user7
             {| message := Some "What is new?"; sessionId := Some "session-1" |}
             "Workflow started" "" 74 75
             sample_logged_in eq_refl eq_refl eq_refl eq_refl).
    + vm_compute. discriminate.
    + lia.
  - vm_compute. reflexivity.
Defined.

(** X9 on a conversation that has an older reply: the count succeeds and the
    new reply comes back. *)
Lemma baseline_sample :
  fst (SendAndWait.POST Sample.verifyToken Sample.getUserById Sample.child_ok
         "/srv/web-ui" Scene.pool_before_after Sample.clock_seconds 3
         (Sample.chat_request (Some "good")) [])
  = Value (NextResponse_json (response_body "Not much") 200).
Proof.
  apply (baseline_skips_counted_rows
           Sample.verifyToken Sample.getUserById Sample.child_ok
           "/srv/web-ui" Scene.pool_before_after Sample.clock_seconds
           (Sample.chat_request (Some "good")) Sample.user7
           {| message := Some "What is new?"; sessionId := Some "session-1" |}
           Scene.db_before Scene.db_after
           (skipn 2 (select_messages Scene.db_after "session-1" 7))
           Scene.new_reply_row "Workflow started" "" 2
           sample_logged_in eq_refl eq_refl eq_refl eq_refl eq_refl eq_refl
           eq_refl eq_refl eq_refl).
Defined.

(** X10 on a conversation that gets no reply, with the first test of the
    loop at the start time and one second between two tests: the wait ends
    at its 76th turn, and has sent 75 queries. *)
Lemma bounded_wait_sample :
  (exists reply log',
      SendAndWait.waitForResponse Scene.pool_no_reply Scene.clock_from_first_test
                                  76 "session-1" 7 3 []
      = (Value reply, log')
      /\ (queries_in log' <= queries_in [] + 75)%nat)
  /\ fst (SendAndWait.waitForResponse Scene.pool_no_reply
            Scene.clock_from_first_test 76 "session-1" 7 3 [])
     = Value SendAndWait.timeout_reply
  /\ queries_in (snd (SendAndWait.waitForResponse Scene.pool_no_reply
                        Scene.clock_from_first_test 76 "session-1" 7 3 []))
     = 75%nat
  /\ fst (SendAndWait.waitForResponse Scene.pool_no_reply
            Scene.clock_from_first_test 75 "session-1" 7 3 [])
     = Pending.
Proof.
  split; [ | split; [ | split ] ].
  - apply (wait_sends_at_most_75_queries
             Scene.pool_no_reply Scene.clock_from_first_test "session-1" 7 3 []).
    + intros i. exists Sample.db_with_old_reply. reflexivity.
    + vm_compute. reflexivity.
  - vm_compute. reflexivity.
  - vm_compute. reflexivity.
  - vm_compute. reflexivity.
Defined.

(** X11 on the sample chat request. *)
Lemma different_workflows_sample :
  ("session-1" ++ "-user-" ++ toString 7)%string <> "session-1".
Proof.
  apply (proj2 (proj2 (routes_start_different_workflows
                         Sample.verifyToken Sample.getUserById Sample.child_ok
                         "/srv/web-ui" Sample.pool_up Sample.clock_seconds
                         (Sample.chat_request (Some "good")) Sample.user7
                         {| message := Some "What is new?";
                            sessionId := Some "session-1" |} 3
                         sample_logged_in eq_refl eq_refl eq_refl))).
Defined.

(** X12 on a store whose every query throws. *)
Lemma history_answers_sample :
  exists response log,
    History.GET Sample.verifyToken Sample.getUserById Sample.pool_down
                (Sample.chat_request (Some "good")) []
    = (Value response, log)
    /\ status response = 200.
Proof.
  apply (proj2 (history_always_answers
                  Sample.verifyToken Sample.getUserById Sample.pool_down
                  (Sample.chat_request (Some "good")))
               Sample.user7 sample_logged_in).
Defined.

(** X13 on the conversation of four turns and its summary. *)
Lemma own_rows_sample :
  Conversations.workflow_id Scene.new_reply_row = "session-1"
  /\ Conversations.user_id Scene.new_reply_row = Some 7.
Proof.
  refine (proj1 (proj2 (history_returns_own_rows_only
                         Sample.verifyToken Sample.getUserById Scene.pool_after
                         (Sample.chat_request (Some "good")) Sample.user7
                         _ _
                         {| workflow_id := "session-1";
                            messages := select_messages Scene.db_after "session-1" 7;
                            summary := hd_error (Summaries.rows Sample.summarised) |}
                         sample_logged_in eq_refl eq_refl))
                Scene.new_reply_row _).
  right. right. right. left. reflexivity.
Defined.


(** X15 on the store with one summary and four turns. *)
Lemma listing_sample :
  exists entries,
    History.GET Sample.verifyToken Sample.getUserById Scene.pool_after
                Sample.listing_request []
    = (Value (NextResponse_json (conversations_body entries) 200),
       [GetUserById 7; PoolQuery (SelectListing 7)])
    /\ NoDup entries.
Proof.
  destruct (listing_is_own_summaries_latest_first
              Sample.verifyToken Sample.getUserById Scene.pool_after
              Sample.listing_request Sample.user7 Scene.db_after
              listing_logged_in eq_refl eq_refl)
    as (entries & E & _ & N & _).
  exists entries. split; assumption.
Defined.

(** X17 on an answer with status 502. *)
Lemma apology_sample :
  map ChatInterfaceSimple.content
      (skipn 1 (ChatInterfaceSimple.messages
                  (ChatInterfaceSimple.final
                     (ChatInterfaceSimple.sendMessage
                        Scene.trim Sample.clock_seconds
                        (Fetch.responds 502 (Throws "Bad Gateway"))
                        Scene.typing))))
  = [ChatInterfaceSimple.apology].
Proof.
  apply (sendMessage_reply_text Scene.trim Sample.clock_seconds
           (Fetch.responds 502 (Throws "Bad Gateway")) Scene.typing).
  - discriminate.
  - reflexivity.
Defined.

(** X18 on an answer that holds the four turns of the conversation. *)
Lemma check_history_sample :
  map ChatInterfaceSimple.content
      (skipn 0 (ChatInterfaceSimple.messages
                  (ChatInterfaceSimple.final
                     (ChatInterfaceSimple.checkHistory
                        Sample.clock_seconds Scene.random (Some Sample.user7)
                        (Fetch.responds 200
                           (Returns
                              {| ChatInterfaceSimple.newMessages :=
                                   Some (select_messages Scene.db_after
                                                         "session-1" 7) |}))
                        Scene.typing))))
  = ["hi there"; "Not much"].
Proof.
  apply (proj2 (checkHistory_adds_replies_only
                  Sample.clock_seconds Scene.random (Some Sample.user7)
                  (Fetch.responds 200
                     (Returns
                        {| ChatInterfaceSimple.newMessages :=
                             Some (select_messages Scene.db_after "session-1" 7) |}))
                  Scene.typing)
               200 (select_messages Scene.db_after "session-1" 7)).
  - discriminate.
  - reflexivity.
  - reflexivity.
Defined.

(** X19 on the sample chat request and the component in session-1. *)
Lemma check_names_workflow_sample :
  exists workflowId,
    ChatInterfaceSimple.sent
      (ChatInterfaceSimple.checkHistory Sample.clock_seconds Scene.random
         (Some Sample.user7) Fetch.rejects Scene.typing)
    = [ {| Fetch.url := "/api/chat/check-response";
           Fetch.body := [("workflowId", workflowId)] |} ]
    /\ In (Spawn "python"
                 [ path_join ["/srv/web-ui"; ".."; "bedrock"; "session";
                              "send_message.py"];
                   workflowId; "What is new?" ])
          (snd (Send.POST Sample.verifyToken Sample.getUserById Sample.child_ok
                          "/srv/web-ui" (Sample.chat_request (Some "good")) [])).
Proof.
  apply (checkHistory_names_submitted_workflow
           Sample.verifyToken Sample.getUserById Sample.child_ok "/srv/web-ui"
           Sample.clock_seconds Scene.random
           (Sample.chat_request (Some "good")) Sample.user7
           {| message := Some "What is new?"; sessionId := Some "session-1" |}
           Scene.typing Fetch.rejects
           sample_logged_in eq_refl eq_refl eq_refl eq_refl).
Defined.

(** X20 on a viewer that has a conversation selected when the store goes
    down. *)
Lemma viewer_sample :
  HistoryViewer.selectedConversation
    (HistoryViewer.loadConversationDetail
       (HistoryViewer.fetch_history Sample.verifyToken Sample.getUserById
          Sample.pool_down (Some "good") (Some "session-1"))
       Scene.viewing)
  = None.
Proof.
  refine (f_equal HistoryViewer.selectedConversation
            (proj1 (viewer_after_failed_or_rejected_fetch
                      Sample.verifyToken Sample.getUserById Sample.pool_down
                      (Sample.chat_request (Some "good")) "session-1" Scene.viewing)
                   Sample.user7 sample_logged_in _ _)).
  - discriminate.
  - left. reflexivity.
Defined.

End FurtherSamples.

(* ===================================================================== *)
(** * Claim about the wait loop                                            *)
(* ===================================================================== *)

Section WaitClaim.
Import Web Auth SendAndWait.

Variable pool : nat -> option Database.
Variable clock : nat -> Z.





End WaitClaim.

Section WaitClaimSample.
Import Web Auth.


End WaitClaimSample.

Section ColumnSamples.

(** VARCHAR(n) counts characters: two accented letters, four bytes, fit
    VARCHAR(2) and not VARCHAR(1), and a space beyond the limit is cut. *)
Lemma VARCHAR_counts_characters :
  String.length (Scene.e_acute ++ Scene.e_acute)%string = 4%nat
  /\ VARCHAR 2 (Scene.e_acute ++ Scene.e_acute)%string
     = Ok (Scene.e_acute ++ Scene.e_acute)%string
  /\ VARCHAR 1 (Scene.e_acute ++ Scene.e_acute)%string
     = Err (string_data_right_truncation 1)
  /\ VARCHAR 1 (Scene.e_acute ++ " ")%string = Ok Scene.e_acute.
Proof. repeat split. Qed.

End ColumnSamples.
